(** * kiali-qe-python: the REST reconciliation layer, embedded in Rocq

    A shallow embedding of [kiali_qe/rest/kiali_api.py] (class
    [KialiExtendedClient]), [kiali_qe/rest/openshift_api.py]
    ([OpenshiftExtendedClient.delete_istio_config]),
    [kiali_qe/entities/overview.py] and the enumerations of
    [kiali_qe/components/enums.py] that those files use.

    Python values decoded from JSON are the type [value] (numbers are the
    integers; floats are left out); operations that can raise return a
    [result]; code that talks to the REST backend runs in the
    state-and-exception monad [M] over an abstract backend state. *)

From Stdlib Require Import List String Ascii ZArith Bool Lia Arith.
From Stdlib Require Import DecimalString.
Import ListNotations.
Open Scope list_scope.
Open Scope string_scope.

Set Implicit Arguments.
Set Warnings "-register-all".

(** ** Exceptions and results *)

Module Py.

(** The exception classes that the modelled code can meet. [NotFoundError] is
    [openshift.dynamic.exceptions.NotFoundError]; [UpstreamError] stands for
    whatever else a collaborator raises (transport failures and the like),
    none of it an instance of [NotFoundError]. *)
Inductive exn : Type :=
| KeyError
| TypeError
| IndexError
| AttributeError
| UnboundLocalError
| NotFoundError
| UpstreamError (what : string).

Inductive result (A : Type) : Type :=
| Ok (a : A)
| Raise (e : exn).

Arguments Ok {A} a.
Arguments Raise {A} e.

Definition bindR {A B} (c : result A) (k : A -> result B) : result B :=
  match c with
  | Ok a => k a
  | Raise e => Raise e
  end.

Notation "x <- c ;; k" := (bindR c (fun x => k))
  (at level 61, c at next level, right associativity).

(** [for x in l: ...] whose body can raise: left to right, the first
    exception ends the loop. *)
Fixpoint forR {A B} (f : A -> result B) (l : list A) : result (list B) :=
  match l with
  | [] => Ok []
  | x :: xs => y <- f x ;; ys <- forR f xs ;; Ok (y :: ys)
  end.

Fixpoint foldR {A S} (f : S -> A -> result S) (s : S) (l : list A) : result S :=
  match l with
  | [] => Ok s
  | x :: xs => s' <- f s x ;; foldR f s' xs
  end.

(** ** Python values, as [json] decoding produces them *)

Inductive value : Type :=
| VNone
| VBool (b : bool)
| VInt (z : Z)
| VStr (s : string)
| VList (l : list value)
| VDict (d : list (string * value)).

(** Truth value of an object: [if x:]. *)
Definition truthy (v : value) : bool :=
  match v with
  | VNone => false
  | VBool b => b
  | VInt z => negb (Z.eqb z 0)
  | VStr s => negb (String.eqb s "")
  | VList l => match l with [] => false | _ => true end
  | VDict d => match d with [] => false | _ => true end
  end.

Fixpoint lookup {A} (k : string) (d : list (string * A)) : option A :=
  match d with
  | [] => None
  | (k', v) :: d' => if String.eqb k k' then Some v else lookup k d'
  end.

(** [v[k]] with a string key. *)
Definition getitem (v : value) (k : string) : result value :=
  match v with
  | VDict d => match lookup k d with Some x => Ok x | None => Raise KeyError end
  | _ => Raise TypeError
  end.

Fixpoint chars (s : string) : list value :=
  match s with
  | EmptyString => []
  | String c s' => VStr (String c EmptyString) :: chars s'
  end.

(** [v[0]]. A decoded dictionary has string keys only, so the integer key is
    never found in it. *)
Definition getitem0 (v : value) : result value :=
  match v with
  | VList (x :: _) => Ok x
  | VList [] => Raise IndexError
  | VStr (String c _) => Ok (VStr (String c EmptyString))
  | VStr EmptyString => Raise IndexError
  | VDict _ => Raise KeyError
  | _ => Raise TypeError
  end.

(** [l[i]] on a list: a negative index counts from the end. *)
Definition index {A} (l : list A) (i : Z) : option A :=
  let i := if Z.ltb i 0 then Z.add i (Z.of_nat (List.length l)) else i in
  if Z.ltb i 0 then None else nth_error l (Z.to_nat i).

(** [v[k]] for any key. A decoded dictionary has string keys only. *)
Definition subscript (v k : value) : result value :=
  match v, k with
  | VDict d, VStr s => getitem v s
  | VDict _, (VList _ | VDict _) => Raise TypeError
  | VDict _, _ => Raise KeyError
  | VList l, VInt i =>
      match index l i with Some x => Ok x | None => Raise IndexError end
  | VList l, VBool b =>
      match index l (if b then 1%Z else 0%Z) with
      | Some x => Ok x
      | None => Raise IndexError
      end
  | VStr s, VInt i =>
      match index (chars s) i with Some x => Ok x | None => Raise IndexError end
  | VStr s, VBool b =>
      match index (chars s) (if b then 1%Z else 0%Z) with
      | Some x => Ok x
      | None => Raise IndexError
      end
  | _, _ => Raise TypeError
  end.

(** [len(v)]. *)
Definition len (v : value) : result nat :=
  match v with
  | VList l => Ok (List.length l)
  | VDict d => Ok (List.length d)
  | VStr s => Ok (String.length s)
  | _ => Raise TypeError
  end.

(** [for x in v]: the elements of a list, the keys of a dictionary, the
    characters of a string. *)
Definition iter (v : value) : result (list value) :=
  match v with
  | VList l => Ok l
  | VDict d => Ok (map (fun kv => VStr (fst kv)) d)
  | VStr s => Ok (chars s)
  | _ => Raise TypeError
  end.

Fixpoint is_prefix (p s : string) : bool :=
  match p, s with
  | EmptyString, _ => true
  | String a p', String b s' => Ascii.eqb a b && is_prefix p' s'
  | String _ _, EmptyString => false
  end.

(** [needle in hay] on two strings. *)
Fixpoint is_substring (needle hay : string) : bool :=
  is_prefix needle hay ||
  match hay with
  | EmptyString => false
  | String _ hay' => is_substring needle hay'
  end.

(** [a == b] on decoded values: [True == 1], lists compare element by
    element, dictionaries regardless of the order of their keys. *)
Fixpoint eqb (a b : value) {struct a} : bool :=
  match a, b with
  | VNone, VNone => true
  | VBool x, VBool y => Bool.eqb x y
  | VBool x, VInt z => Z.eqb (if x then 1 else 0) z
  | VInt z, VBool x => Z.eqb z (if x then 1 else 0)
  | VInt x, VInt y => Z.eqb x y
  | VStr s, VStr t => String.eqb s t
  | VList l1, VList l2 =>
      (fix go (l1 l2 : list value) {struct l1} : bool :=
         match l1, l2 with
         | [], [] => true
         | x :: xs, y :: ys => eqb x y && go xs ys
         | _, _ => false
         end) l1 l2
  | VDict d1, VDict d2 =>
      Nat.eqb (List.length d1) (List.length d2) &&
      (fix all (d1 : list (string * value)) {struct d1} : bool :=
         match d1 with
         | [] => true
         | (k, v) :: d1' =>
             match lookup k d2 with
             | Some v' => eqb v v'
             | None => false
             end && all d1'
         end) d1
  | _, _ => false
  end.

(** [a in b]: substring test on strings, membership by [==] in a list, key
    membership in a dictionary (whose keys are strings; an unhashable [a]
    raises). *)
Definition contains (a b : value) : result bool :=
  match b with
  | VStr t =>
      match a with
      | VStr s => Ok (is_substring s t)
      | _ => Raise TypeError
      end
  | VList l => Ok (existsb (eqb a) l)
  | VDict d =>
      match a with
      | VStr s => Ok (match lookup s d with Some _ => true | None => false end)
      | VList _ | VDict _ => Raise TypeError
      | _ => Ok false
      end
  | _ => Raise TypeError
  end.

(** [hash(v)] succeeds except on lists and dictionaries. *)
Definition hashable (v : value) : result value :=
  match v with
  | VList _ | VDict _ => Raise TypeError
  | _ => Ok v
  end.

(** Structural equality of values is decidable. *)
Fixpoint eq_dec (a b : value) {struct a} : {a = b} + {a <> b}.
Proof.
  destruct a as [| x | x | x | l | d]; destruct b as [| y | y | y | l' | d'];
    try (right; discriminate).
  - left; reflexivity.
  - destruct (bool_dec x y) as [-> | n]; [left; reflexivity | right; congruence].
  - destruct (Z.eq_dec x y) as [-> | n]; [left; reflexivity | right; congruence].
  - destruct (string_dec x y) as [-> | n]; [left; reflexivity | right; congruence].
  - destruct (list_eq_dec eq_dec l l') as [-> | n];
      [left; reflexivity | right; congruence].
  - assert (H : forall p q : string * value, {p = q} + {p <> q}).
    { intros [k v] [k' v']. destruct (string_dec k k') as [-> | n];
        [| right; congruence].
      destruct (eq_dec v v') as [-> | n]; [left; reflexivity | right; congruence]. }
    destruct (list_eq_dec H d d') as [-> | n]; [left; reflexivity | right; congruence].
Defined.

(** [s[:-n]]: [s] without its last [n] characters (empty when it has no
    more than [n]). *)
Definition drop_last (n : nat) (s : string) : string :=
  substring 0 (String.length s - n) s.

Definition is_space (c : ascii) : bool :=
  let n := nat_of_ascii c in
  (Nat.leb 9 n && Nat.leb n 13) || (Nat.leb 28 n && Nat.leb n 32).

Fixpoint lstrip (s : string) : string :=
  match s with
  | String c s' => if is_space c then lstrip s' else s
  | EmptyString => EmptyString
  end.

Fixpoint rstrip (s : string) : string :=
  match s with
  | String c s' =>
      match rstrip s' with
      | EmptyString => if is_space c then EmptyString else String c EmptyString
      | t => String c t
      end
  | EmptyString => EmptyString
  end.

(** [s.strip()] *)
Definition strip (s : string) : string := rstrip (lstrip s).

Definition str_of_nat (n : nat) : string :=
  NilEmpty.string_of_uint (Nat.to_uint n).

Definition str_of_Z (z : Z) : string :=
  NilZero.string_of_int (Z.to_int z).

End Py.

Import Py.
Notation "x <- c ;; k" := (bindR c (fun x => k))
  (at level 61, c at next level, right associativity).

(** ** Enumerations ([kiali_qe/components/enums.py])

    A [StringEnum] member carries its UI text in [.text]. *)

Inductive HealthType : Type :=
| HealthType_NA
| HealthType_HEALTHY
| HealthType_FAILURE
| HealthType_DEGRADED.

Definition HealthType_text (h : HealthType) : string :=
  match h with
  | HealthType_NA => "N/A"
  | HealthType_HEALTHY => "Healthy"
  | HealthType_FAILURE => "Failure"
  | HealthType_DEGRADED => "Degraded"
  end.

(** Members of one enumeration are equal only to themselves. *)
Definition HealthType_eqb (a b : HealthType) : bool :=
  match a, b with
  | HealthType_NA, HealthType_NA
  | HealthType_HEALTHY, HealthType_HEALTHY
  | HealthType_FAILURE, HealthType_FAILURE
  | HealthType_DEGRADED, HealthType_DEGRADED => true
  | _, _ => false
  end.

Inductive IstioConfigValidation : Type :=
| NA
| VALID
| WARNING
| NOT_VALID.

Definition IstioConfigValidation_text (v : IstioConfigValidation) : string :=
  match v with
  | NA => "N/A"
  | VALID => "Valid"
  | WARNING => "Warning"
  | NOT_VALID => "Not Valid"
  end.

Inductive OverviewPageType : Type :=
| APPS
| SERVICES
| WORKLOADS.

Definition OverviewPageType_text (t : OverviewPageType) : string :=
  match t with
  | APPS => "Apps"
  | SERVICES => "Services"
  | WORKLOADS => "Workloads"
  end.

Definition OverviewPageType_eqb (a b : OverviewPageType) : bool :=
  match a, b with
  | APPS, APPS | SERVICES, SERVICES | WORKLOADS, WORKLOADS => true
  | _, _ => false
  end.

Inductive IstioConfigObjectType : Type :=
| DESTINATION_RULE
| RULE
| ADAPTER
| TEMPLATE
| VIRTUAL_SERVICE
| GATEWAY
| SERVICE_ENTRY
| QUOTA_SPEC
| QUOTA_SPEC_BINDING
| POLICY
| MESH_POLICY
| CLUSTER_RBAC_CONFIG
| RBAC_CONFIG
| SERVICE_ROLE
| SERVICE_ROLE_BINDING.

Definition IstioConfigObjectType_text (t : IstioConfigObjectType) : string :=
  match t with
  | DESTINATION_RULE => "DestinationRule"
  | RULE => "Rule"
  | ADAPTER => "Adapter"
  | TEMPLATE => "Template"
  | VIRTUAL_SERVICE => "VirtualService"
  | GATEWAY => "Gateway"
  | SERVICE_ENTRY => "ServiceEntry"
  | QUOTA_SPEC => "QuotaSpec"
  | QUOTA_SPEC_BINDING => "QuotaSpecBinding"
  | POLICY => "Policy"
  | MESH_POLICY => "MeshPolicy"
  | CLUSTER_RBAC_CONFIG => "ClusterRbacConfig"
  | RBAC_CONFIG => "RbacConfig"
  | SERVICE_ROLE => "ServiceRole"
  | SERVICE_ROLE_BINDING => "ServiceRoleBinding"
  end.

Inductive IstioConfigPageFilter : Type :=
| ISTIO_TYPE
| ISTIO_NAME
| CONFIG.

Definition IstioConfigPageFilter_text (f : IstioConfigPageFilter) : string :=
  match f with
  | ISTIO_TYPE => "Istio Type"
  | ISTIO_NAME => "Istio Name"
  | CONFIG => "Config"
  end.

(** The class namespace of [IstioConfigPageFilter]: the names that
    [IstioConfigPageFilter.<NAME>] can resolve. *)
Definition IstioConfigPageFilter_members : list (string * IstioConfigPageFilter) :=
  [("ISTIO_TYPE", ISTIO_TYPE); ("ISTIO_NAME", ISTIO_NAME); ("CONFIG", CONFIG)].

(** [IstioConfigPageFilter.<name>]: attribute lookup on the enumeration
    class; a name that is no member raises [AttributeError]. *)
Definition IstioConfigPageFilter_getattr (name : string) : result IstioConfigPageFilter :=
  match lookup name IstioConfigPageFilter_members with
  | Some m => Ok m
  | None => Raise AttributeError
  end.

(** ** Calling with keyword arguments *)

(** A call by keywords against the parameter names of the callee: a keyword
    that names no parameter raises [TypeError]. *)
Fixpoint check_keywords (params : list string) (kwargs : list (string * value)) : result unit :=
  match kwargs with
  | [] => Ok tt
  | (k, _) :: rest =>
      if existsb (String.eqb k) params then check_keywords params rest
      else Raise TypeError
  end.

(** The value bound to parameter [name]: the keyword given, else the default,
    else [TypeError] (a required argument is missing). *)
Definition argument (kwargs : list (string * value)) (name : string)
  (default : option value) : result value :=
  match lookup name kwargs with
  | Some v => Ok v
  | None =>
      match default with
      | Some d => Ok d
      | None => Raise TypeError
      end
  end.

(** ** [kiali_qe/entities/overview.py] *)

Module Overview.

Record t : Type := mk {
  overview_type : value;
  namespace : value;
  items : value;
  unhealthy : value;
  healthy : value;
  degraded : value
}.

Definition params : list string :=
  ["overview_type"; "namespace"; "items"; "healthy"; "unhealthy"; "degraded"].

(** [Overview(...)] called by keywords, that is
    [__init__(self, overview_type, namespace, items, healthy=0, unhealthy=0, degraded=0)]. *)
Definition init (kwargs : list (string * value)) : result t :=
  _ <- check_keywords params kwargs ;;
  ot <- argument kwargs "overview_type" None ;;
  ns <- argument kwargs "namespace" None ;;
  it <- argument kwargs "items" None ;;
  h <- argument kwargs "healthy" (Some (VInt 0)) ;;
  u <- argument kwargs "unhealthy" (Some (VInt 0)) ;;
  d <- argument kwargs "degraded" (Some (VInt 0)) ;;
  Ok {| overview_type := ot; namespace := ns; items := it;
        unhealthy := u; healthy := h; degraded := d |}.

(** What [other] can be in [is_equal(self, other)]: an [Overview], or an
    object of another class. *)
Inductive object : Type :=
| AnOverview (o : t)
| Another (v : value).

Definition ne (a b : value) : bool := negb (eqb a b).

(** [Overview.is_equal(self, other, advanced_check=True)] *)
Definition is_equal (self : t) (other : object) (advanced_check : bool) : bool :=
  match other with
  | Another _ => false
  | AnOverview other =>
      if ne (overview_type self) (overview_type other) then false
      else if ne (namespace self) (namespace other) then false
      else if ne (items self) (items other) then false
      else if advanced_check then
        if ne (healthy self) (healthy other) then false
        else if ne (unhealthy self) (unhealthy other) then false
        else if ne (degraded self) (degraded other) then false
        else true
      else true
  end.

(** [Overview.__eq__] *)
Definition eq (self : t) (other : object) : bool :=
  is_equal self other true.

End Overview.

(** ** The entity classes that [kiali_api.py] constructs

    [kiali_qe/entities/{service,workload,applications,istio_config}.py] are
    not part of the files at hand. Each class is taken to be a record of the
    keyword arguments its constructor is called with in [kiali_api.py]; a
    keyword that a call site leaves out is [None]. *)

Module Service.
Record t : Type := mk {
  namespace : value;
  name : value;
  istio_sidecar : value;
  health : option HealthType
}.
End Service.

Module Application.
Record t : Type := mk {
  namespace : value;
  name : value;
  istio_sidecar : value;
  health : option HealthType
}.
End Application.

Module Workload.
Record t : Type := mk {
  namespace : value;
  name : value;
  workload_type : value;
  istio_sidecar : value;
  app_label : bool;
  version_label : bool;
  health : option HealthType
}.
End Workload.

(** [IstioConfig(name, namespace, object_type, validation)] and
    [Rule(name, namespace, object_type)]: one list holds both. *)
Module Config.
Inductive t : Type :=
| IstioConfig (name namespace : value) (object_type : string)
    (validation : IstioConfigValidation)
| Rule (name namespace : value) (object_type : string).

Definition name (c : t) : value :=
  match c with
  | IstioConfig n _ _ _ | Rule n _ _ => n
  end.

Definition namespace (c : t) : value :=
  match c with
  | IstioConfig _ ns _ _ | Rule _ ns _ => ns
  end.

Definition object_type (c : t) : string :=
  match c with
  | IstioConfig _ _ ty _ | Rule _ _ ty => ty
  end.

Definition eq_dec (a b : t) : {a = b} + {a <> b}.
Proof.
  decide equality; try apply string_dec; try apply Py.eq_dec.
  decide equality.
Defined.

(** Equality of two configs as the equality of all their attributes. *)
Definition same (a b : t) : bool := if eq_dec a b then true else false.
End Config.

Module IstioConfigDetails.
Record t : Type := mk {
  name : value;
  _type : value;
  text : string;
  validation : IstioConfigValidation;
  error_messages : list value
}.
End IstioConfigDetails.

Module WorkloadPod.
Record t : Type := mk {
  name : string;
  created_at : string;
  created_by : string;
  labels : value;
  istio_init_containers : string;
  istio_containers : string;
  status : IstioConfigValidation;
  phase : value
}.
End WorkloadPod.

Module DestinationService.
Record t : Type := mk {
  _from : value;
  name : value;
  namespace : value
}.
End DestinationService.

Module SourceWorkload.
Record t : Type := mk {
  to : value;
  workloads : list value
}.
End SourceWorkload.

Module VirtualServiceWeight.
Record t : Type := mk {
  host : value;
  subset : value;
  port : value;
  status : value;
  weight : value
}.
End VirtualServiceWeight.

Module AppWorkload.
Record t : Type := mk {
  name : value;
  istio_sidecar : value
}.
End AppWorkload.

(** A keyword parameter at a call site: given, or left to the constructor's
    default. *)
Inductive arg (A : Type) : Type :=
| Given (a : A)
| Default.

Arguments Given {A} a.
Arguments Default {A}.

(** A parsed timestamp ([kiali_qe.utils.date.parse_from_rest] returns one). *)
Inductive datetime : Type :=
| Datetime (seconds : Z).

Module VirtualService.
Record t : Type := mk {
  status : IstioConfigValidation;
  name : value;
  created_at : datetime;
  resource_version : value;
  hosts : value;
  weights : list VirtualServiceWeight.t
}.
End VirtualService.

Module DestinationRule.
Record t : Type := mk {
  status : IstioConfigValidation;
  name : value;
  host : value;
  traffic_policy : string;
  subsets : string;
  created_at : datetime;
  resource_version : value
}.
End DestinationRule.

(** [WorkloadDetails] lists [ServiceDetails] and the other way round. *)
Module Details.
Inductive WorkloadDetails : Type := mkWorkloadDetails {
  w_name : value;
  w_istio_sidecar : arg value;
  w_workload_type : value;
  w_created_at : datetime;
  w_resource_version : value;
  w_health : arg (option HealthType);
  w_labels : value;
  w_pods_number : arg nat;
  w_services_number : arg nat;
  w_destination_services_number : arg nat;
  w_destination_services : arg (list DestinationService.t);
  w_pods : arg (list WorkloadPod.t);
  w_services : arg (list ServiceDetails)
}
with ServiceDetails : Type := mkServiceDetails {
  s_name : value;
  s_istio_sidecar : arg value;
  s_created_at : datetime;
  s_resource_version : value;
  s_service_type : value;
  s_ip : value;
  s_ports : string;
  s_labels : value;
  s_health : arg (option HealthType);
  s_workloads : arg (list WorkloadDetails);
  s_source_workloads : arg (list SourceWorkload.t);
  s_virtual_services : arg (list VirtualService.t);
  s_destination_rules : arg (list DestinationRule.t)
}.
End Details.

Module ApplicationDetails.
Record t : Type := mk {
  name : value;
  istio_sidecar : value;
  health : option HealthType;
  workloads : list AppWorkload.t;
  services : list value
}.
End ApplicationDetails.

(** ** Collections: what a listing returns

    A listing returns its [list] of entities, or, when a name filter was
    applied, a [set] of them. A set is kept as the list of its distinct
    members. *)
Inductive collection (A : Type) : Type :=
| PyList (l : list A)
| PySet (members : list A).

Arguments PyList {A} l.
Arguments PySet {A} members.

Definition elements {A} (c : collection A) : list A :=
  match c with
  | PyList l => l
  | PySet l => l
  end.

(** The distinct members of [l] under [same], first occurrences kept. *)
Fixpoint distinct {A} (same : A -> A -> bool) (l : list A) : list A :=
  match l with
  | [] => []
  | x :: xs => x :: filter (fun y => negb (same x y)) (distinct same xs)
  end.

(** [set(l)] *)
Definition set {A} (same : A -> A -> bool) (l : list A) : collection A :=
  PySet (distinct same l).

(** [a.intersection(b)] *)
Definition intersection {A} (same : A -> A -> bool) (a b : list A) : list A :=
  filter (fun x => existsb (same x) b) a.

(** [c.pop()]: the last element of a list ([IndexError] when it is empty);
    some member of a set ([KeyError] when it is empty), which one is the hash
    table's affair: [choice] picks it. *)
Definition pop {A} (choice : nat) (c : collection A) : result A :=
  match c with
  | PyList l =>
      match rev l with
      | x :: _ => Ok x
      | [] => Raise IndexError
      end
  | PySet l =>
      match nth_error l (choice mod List.length l) with
      | Some x => Ok x
      | None => Raise KeyError
      end
  end.

(** ** The environment of [KialiExtendedClient]

    The REST backend behind [KialiClient.request], and the helpers of this
    repository that [kiali_api.py] imports from files that are not at hand. *)
Record Env : Type := {
  (** the backend's state *)
  state : Type;
  (** [KialiClient.request(method_name, path, params).json()] *)
  request : string -> list (string * value) -> list (string * string) ->
            state -> result value * state;
  (** [ServiceHealth.get_from_rest(d).is_healthy()] and its siblings *)
  ServiceHealth_is_healthy : value -> result HealthType;
  WorkloadHealth_is_healthy : value -> result HealthType;
  ApplicationHealth_is_healthy : value -> result HealthType;
  (** [kiali_qe.utils.date] *)
  parse_from_rest : value -> result datetime;
  from_rest_to_ui : value -> result string;
  (** [kiali_qe.utils.to_linear_string], on a decoded value and on the
      dictionary that [get_subset_labels] builds *)
  to_linear_string : value -> result string;
  labels_to_linear_string : list (value * list string) -> result string;
  (** [json.dumps] *)
  dumps : value -> string;
  (** [str()] of a list or a dictionary *)
  repr : value -> string;
  (** [__eq__] (with [__hash__]) of the entity classes, as [set] uses them *)
  same_service : Service.t -> Service.t -> bool;
  same_application : Application.t -> Application.t -> bool;
  same_workload : Workload.t -> Workload.t -> bool;
  same_config : Config.t -> Config.t -> bool;
  (** the member that [set.pop()] removes *)
  choice : nat
}.

(** ** [kiali_qe/rest/kiali_api.py]: [KialiExtendedClient] *)

Section KialiExtendedClient.

Variable E : Env.

(** A method of the client: it may change the backend's state, and it
    returns or raises. *)
Definition M (A : Type) : Type := state E -> result A * state E.

Definition ret {A} (a : A) : M A := fun s => (Ok a, s).

Definition lift {A} (r : result A) : M A := fun s => (r, s).

Definition bind {A B} (c : M A) (k : A -> M B) : M B :=
  fun s =>
    match c s with
    | (Ok a, s') => k a s'
    | (Raise e, s') => (Raise e, s')
    end.

Notation "x <~ c ;; k" := (bind c (fun x => k))
  (at level 61, c at next level, right associativity).

Fixpoint forM {A B} (f : A -> M B) (l : list A) : M (list B) :=
  match l with
  | [] => ret []
  | x :: xs => y <~ f x ;; ys <~ forM f xs ;; ret (y :: ys)
  end.

(** [str(v)], also what ['{}'.format(v)] prints. *)
Definition str (v : value) : string :=
  match v with
  | VNone => "None"
  | VBool true => "True"
  | VBool false => "False"
  | VInt z => str_of_Z z
  | VStr s => s
  | VList _ | VDict _ => repr E v
  end.

(** [a + b] when [a] is a [str]: [b] must be one too. *)
Definition str_add (a : string) (b : value) : result string :=
  match b with
  | VStr s => Ok (a ++ s)
  | _ => Raise TypeError
  end.

(** [v.keys()] *)
Definition keys (v : value) : result (list string) :=
  match v with
  | VDict d => Ok (map fst d)
  | _ => Raise AttributeError
  end.

(** [v.items()] *)
Definition dict_items (v : value) : result (list (string * value)) :=
  match v with
  | VDict d => Ok d
  | _ => Raise AttributeError
  end.

(** [[_i for _i in items if p(_i)]] *)
Fixpoint filterR {A} (p : A -> result bool) (l : list A) : result (list A) :=
  match l with
  | [] => Ok []
  | x :: xs =>
      b <- p x ;;
      ys <- filterR p xs ;;
      Ok (if b then x :: ys else ys)
  end.

Definition get_response (method_name : string) (path : list (string * value)) : M value :=
  request E method_name path [].

Definition get_validation (method_name : string) (path : list (string * value)) : M value :=
  d <~ request E method_name path [("validate", "true")] ;;
  lift (getitem d "validation").

Definition get_labels (object_rest : value) : result value :=
  b <- contains (VStr "labels") object_rest ;;
  if b then getitem object_rest "labels" else Ok (VDict []).

Definition namespace_list : M (list value) :=
  entities_j <~ get_response "namespaceList" [] ;;
  if truthy entities_j then
    lift (l <- iter entities_j ;;
          forR (fun entity_j => getitem entity_j "name") l)
  else ret [].

(** The namespaces a listing visits: those given, or all of them. *)
Definition scope (namespaces : list value) : M (list value) :=
  if Nat.ltb 0 (List.length namespaces) then ret namespaces else namespace_list.

Definition get_service_health (namespace service_name : value) : M (option HealthType) :=
  _health_data <~ get_response "serviceHealth"
                    [("namespace", namespace); ("service", service_name)] ;;
  if truthy _health_data then
    h <~ lift (ServiceHealth_is_healthy E _health_data) ;; ret (Some h)
  else ret None.

Definition get_workload_health (namespace workload_name : value) : M (option HealthType) :=
  _health_data <~ get_response "workloadHealth"
                    [("namespace", namespace); ("workload", workload_name)] ;;
  if truthy _health_data then
    h <~ lift (WorkloadHealth_is_healthy E _health_data) ;; ret (Some h)
  else ret None.

Definition get_app_health (namespace app_name : value) : M (option HealthType) :=
  _health_data <~ get_response "appHealth"
                    [("namespace", namespace); ("app", app_name)] ;;
  if truthy _health_data then
    h <~ lift (ApplicationHealth_is_healthy E _health_data) ;; ret (Some h)
  else ret None.

(** The name filter of the three listings: for each name in turn, the items
    whose name contains it. *)
Definition filter_by_name {A} (name_of : A -> value) (names : list value)
  (items : list A) : result (list A) :=
  found <- forR (fun _name => filterR (fun _i => contains _name (name_of _i)) items) names ;;
  Ok (List.concat found).

Definition service_list (namespaces service_names : list value) : M (collection Service.t) :=
  namespace_list <~ scope namespaces ;;
  found <~ forM (fun _namespace =>
    _data <~ get_response "serviceList" [("namespace", _namespace)] ;;
    _services <~ lift (getitem _data "services") ;;
    rows <~ lift (iter _services) ;;
    forM (fun _service_rest =>
      name <~ lift (getitem _service_rest "name") ;;
      istio_sidecar <~ lift (getitem _service_rest "istioSidecar") ;;
      service_name <~ lift (getitem _service_rest "name") ;;
      health <~ get_service_health _namespace service_name ;;
      ret (Service.mk _namespace name istio_sidecar health)) rows) namespace_list ;;
  let items := List.concat found in
  if Nat.ltb 0 (List.length service_names) then
    filtered_list <~ lift (filter_by_name Service.name service_names items) ;;
    ret (set (same_service E) filtered_list)
  else ret (PyList items).

Definition application_list (namespaces application_names : list value)
  : M (collection Application.t) :=
  namespace_list <~ scope namespaces ;;
  found <~ forM (fun _namespace =>
    _data <~ get_response "appList" [("namespace", _namespace)] ;;
    _applications <~ lift (getitem _data "applications") ;;
    if truthy _applications then
      rows <~ lift (iter _applications) ;;
      forM (fun _application_rest =>
        name <~ lift (getitem _application_rest "name") ;;
        istio_sidecar <~ lift (getitem _application_rest "istioSidecar") ;;
        app_name <~ lift (getitem _application_rest "name") ;;
        health <~ get_app_health _namespace app_name ;;
        ret (Application.mk _namespace name istio_sidecar health)) rows
    else ret []) namespace_list ;;
  let items := List.concat found in
  if Nat.ltb 0 (List.length application_names) then
    filtered_list <~ lift (filter_by_name Application.name application_names items) ;;
    ret (set (same_application E) filtered_list)
  else ret (PyList items).

Definition workload_list (namespaces workload_names : list value)
  : M (collection Workload.t) :=
  namespace_list <~ scope namespaces ;;
  found <~ forM (fun _namespace =>
    _data <~ get_response "workloadList" [("namespace", _namespace)] ;;
    _workloads <~ lift (getitem _data "workloads") ;;
    if truthy _workloads then
      rows <~ lift (iter _workloads) ;;
      forM (fun _workload_rest =>
        _labels <~ lift (get_labels _workload_rest) ;;
        name <~ lift (getitem _workload_rest "name") ;;
        workload_type <~ lift (getitem _workload_rest "type") ;;
        istio_sidecar <~ lift (getitem _workload_rest "istioSidecar") ;;
        ks <~ lift (keys _labels) ;;
        let app_label := existsb (String.eqb "app") ks in
        let version_label := existsb (String.eqb "version") ks in
        workload_name <~ lift (getitem _workload_rest "name") ;;
        health <~ get_workload_health _namespace workload_name ;;
        ret (Workload.mk _namespace name workload_type istio_sidecar
               app_label version_label health)) rows
    else ret []) namespace_list ;;
  let items := List.concat found in
  if Nat.ltb 0 (List.length workload_names) then
    filtered_list <~ lift (filter_by_name Workload.name workload_names items) ;;
    ret (set (same_workload E) filtered_list)
  else ret (PyList items).

(** *** [overview_list] *)

(** The four counters of the bucketing loop. *)
Record counters : Type := mkCounters {
  _healthy : nat;
  _unhealthy : nat;
  _degraded : nat;
  _na : nat
}.

(** [_item.health == HEALTH_TYPE.X], where [_item.health] may be [None]. *)
Definition health_is (health : option HealthType) (x : HealthType) : bool :=
  match health with
  | Some h => HealthType_eqb h x
  | None => false
  end.

(** The body of [for _item in _items]: four tests in a row. *)
Definition count_item (c : counters) (health : option HealthType) : counters :=
  let c := if health_is health HealthType_HEALTHY
           then mkCounters (S (_healthy c)) (_unhealthy c) (_degraded c) (_na c) else c in
  let c := if health_is health HealthType_DEGRADED
           then mkCounters (_healthy c) (_unhealthy c) (S (_degraded c)) (_na c) else c in
  let c := if health_is health HealthType_FAILURE
           then mkCounters (_healthy c) (S (_unhealthy c)) (_degraded c) (_na c) else c in
  let c := if health_is health HealthType_NA
           then mkCounters (_healthy c) (_unhealthy c) (_degraded c) (S (_na c)) else c in
  c.

(** The whole loop, from the four zeroes. *)
Definition count_health (healths : list (option HealthType)) : counters :=
  fold_left count_item healths (mkCounters 0 0 0 0).

Definition VNat (n : nat) : value := VInt (Z.of_nat n).

(** The [health] attributes of the items of one namespace, in order: of its
    services, its workloads or its applications. *)
Definition overview_items (overview_type : OverviewPageType) (_namespace : value)
  : M (list (option HealthType)) :=
  if OverviewPageType_eqb overview_type SERVICES then
    _items <~ service_list [_namespace] [] ;;
    ret (map Service.health (elements _items))
  else if OverviewPageType_eqb overview_type WORKLOADS then
    _items <~ workload_list [_namespace] [] ;;
    ret (map Workload.health (elements _items))
  else
    _items <~ application_list [_namespace] [] ;;
    ret (map Application.health (elements _items)).

Definition overview_list (namespaces : list value) (overview_type : OverviewPageType)
  : M (list Overview.t) :=
  namespace_list <~ scope namespaces ;;
  forM (fun _namespace =>
    _items <~ overview_items overview_type _namespace ;;
    let c := count_health _items in
    lift (Overview.init
            [("overview_type", VStr (OverviewPageType_text overview_type));
             ("namespace", _namespace);
             ("items", VNat (List.length _items));
             ("healthy", VNat (_healthy c));
             ("unhealthy", VNat (_unhealthy c));
             ("degraded", VNat (_degraded c));
             ("na", VNat (_na c))])) namespace_list.

(** *** Validation of an Istio config *)

(** Lines 711-720 of [get_istio_config_validation]: the verdict on the
    validation document [_health_data]. *)
Definition verdict (_health_data : value) : result IstioConfigValidation :=
  if truthy _health_data then
    checks <- getitem _health_data "checks" ;;
    n <- len checks ;;
    if Nat.ltb 0 n then
      checks' <- getitem _health_data "checks" ;;
      l <- iter checks' ;;
      severities <- forR (fun check => s <- getitem check "severity" ;; hashable s) l ;;
      if existsb (eqb (VStr "error")) severities then Ok NOT_VALID
      else Ok WARNING
    else Ok VALID
  else Ok NA.

Definition get_istio_config_validation (namespace object_type object_name : value)
  : M IstioConfigValidation :=
  _health_data <~ get_validation "istioConfigDetails"
                    [("namespace", namespace); ("object_type", object_type);
                     ("object", object_name)] ;;
  lift (verdict _health_data).

Definition get_istio_config_messages (namespace object_type object_name : value)
  : M (list value) :=
  _health_data <~ get_validation "istioConfigDetails"
                    [("namespace", namespace); ("object_type", object_type);
                     ("object", object_name)] ;;
  lift (if truthy _health_data then
          checks <- getitem _health_data "checks" ;;
          n <- len checks ;;
          if Nat.ltb 0 n then
            checks' <- getitem _health_data "checks" ;;
            l <- iter checks' ;;
            forR (fun _check => getitem _check "message") l
          else Ok []
        else Ok []).

Definition get_pod_status (istioSidecar pod_data : value) : result IstioConfigValidation :=
  if negb (truthy istioSidecar) then Ok WARNING
  else
    versionLabel <- getitem pod_data "versionLabel" ;;
    if negb (truthy versionLabel) then Ok WARNING
    else
      appLabel <- getitem pod_data "appLabel" ;;
      if negb (truthy appLabel) then Ok WARNING else Ok VALID.

(** *** [istio_config_list] *)

(** The three lists that the filters are sorted into. *)
Record sorted_filters : Type := mkSorted {
  f_namespaces : list value;
  istio_names : list value;
  istio_types : list value
}.

(** [FILTER_TYPE.<member>.text in _filter['name']]: the attribute is looked
    up first, then the filter's name. *)
Definition filter_is (member : string) (_filter : value) : result bool :=
  m <- IstioConfigPageFilter_getattr member ;;
  name <- getitem _filter "name" ;;
  contains (VStr (IstioConfigPageFilter_text m)) name.

(** The body of [for _filter in filters]. *)
Definition sort_filter (acc : sorted_filters) (_filter : value) : result sorted_filters :=
  b <- filter_is "NAMESPACE" _filter ;;
  if b then
    v <- getitem _filter "value" ;;
    Ok (mkSorted (f_namespaces acc ++ [v])%list (istio_names acc) (istio_types acc))
  else
    b <- filter_is "ISTIO_NAME" _filter ;;
    if b then
      v <- getitem _filter "value" ;;
      Ok (mkSorted (f_namespaces acc) (istio_names acc ++ [v])%list (istio_types acc))
    else
      b <- filter_is "ISTIO_TYPE" _filter ;;
      if b then
        v <- getitem _filter "value" ;;
        Ok (mkSorted (f_namespaces acc) (istio_names acc) (istio_types acc ++ [v])%list)
      else Ok acc.

Definition sort_filters (filters : list value) : result sorted_filters :=
  foldR sort_filter (mkSorted [] [] []) filters.

(** [len(v[k]) > 0] *)
Definition nonempty (v : value) (k : string) : result bool :=
  x <- getitem v k ;;
  n <- len x ;;
  Ok (Nat.ltb 0 n).

(** [_policy['metadata']['name']] *)
Definition metadata_name (_policy : value) : result value :=
  m <- getitem _policy "metadata" ;;
  getitem m "name".

(** One [IstioConfig(...)] of the list, with its validation fetched. *)
Definition istio_config_of (_namespace : value) (object_type : IstioConfigObjectType)
  (kind : string) (_policy : value) : M Config.t :=
  name <~ lift (metadata_name _policy) ;;
  object_name <~ lift (metadata_name _policy) ;;
  validation <~ get_istio_config_validation _namespace (VStr kind) object_name ;;
  ret (Config.IstioConfig name _namespace (IstioConfigObjectType_text object_type) validation).

(** A category listed under ['items']: destination rules, virtual services. *)
Definition configs_with_items (_data _namespace : value) (category : string)
  (object_type : IstioConfigObjectType) (kind : string) : M (list Config.t) :=
  some <~ lift (nonempty _data category) ;;
  if some then
    c <~ lift (getitem _data category) ;;
    some_items <~ lift (nonempty c "items") ;;
    if some_items then
      c' <~ lift (getitem _data category) ;;
      policies <~ lift (x <- getitem c' "items" ;; iter x) ;;
      forM (istio_config_of _namespace object_type kind) policies
    else ret []
  else ret [].

(** A category that is a plain list: quota specs, gateways and so on. *)
Definition configs (_data _namespace : value) (category : string)
  (object_type : IstioConfigObjectType) (kind : string) : M (list Config.t) :=
  some <~ lift (nonempty _data category) ;;
  if some then
    policies <~ lift (x <- getitem _data category ;; iter x) ;;
    forM (istio_config_of _namespace object_type kind) policies
  else ret [].

(** The [Rule] entries: the rules themselves. *)
Definition rules (_data _namespace : value) : result (list Config.t) :=
  some <- nonempty _data "rules" ;;
  if some then
    x <- getitem _data "rules" ;;
    policies <- iter x ;;
    forR (fun _policy =>
      name <- metadata_name _policy ;;
      Ok (Config.Rule name _namespace (IstioConfigObjectType_text RULE))) policies
  else Ok [].

(** The [Rule] entries with a sub-kind: adapters (sub-kind under ['adapter'])
    and templates (under ['template']); [object_type] is
    ['{}: {}'.format(<category text>, <sub-kind>)]. *)
Definition rules_with_subkind (_data _namespace : value) (category : string)
  (object_type : IstioConfigObjectType) (subkind : string) : result (list Config.t) :=
  some <- nonempty _data category ;;
  if some then
    x <- getitem _data category ;;
    policies <- iter x ;;
    forR (fun _policy =>
      name <- metadata_name _policy ;;
      sub <- getitem _policy subkind ;;
      Ok (Config.Rule name _namespace
            (IstioConfigObjectType_text object_type ++ ": " ++ str sub))) policies
  else Ok [].

(** The body of [for _namespace in namespace_list]: the items of one
    namespace, category after category. *)
Definition namespace_configs (_namespace : value) : M (list Config.t) :=
  _data <~ get_response "istioConfigList" [("namespace", _namespace)] ;;
  a <~ configs_with_items _data _namespace "destinationRules" DESTINATION_RULE "destinationrules" ;;
  b <~ lift (rules _data _namespace) ;;
  c <~ lift (rules_with_subkind _data _namespace "adapters" ADAPTER "adapter") ;;
  d <~ lift (rules_with_subkind _data _namespace "templates" TEMPLATE "template") ;;
  e <~ configs_with_items _data _namespace "virtualServices" VIRTUAL_SERVICE "virtualservices" ;;
  f <~ configs _data _namespace "quotaSpecs" QUOTA_SPEC "quotaspecs" ;;
  g <~ configs _data _namespace "quotaSpecBindings" QUOTA_SPEC_BINDING "quotaspecbindings" ;;
  h <~ configs _data _namespace "gateways" GATEWAY "gateways" ;;
  i <~ configs _data _namespace "serviceEntries" SERVICE_ENTRY "serviceentries" ;;
  ret (a ++ b ++ c ++ d ++ e ++ f ++ g ++ h ++ i)%list.

(** Lines 336-351: the name and type filters applied to the items. *)
Definition apply_filters (names types : list value) (items : list Config.t)
  : result (collection Config.t) :=
  if Nat.ltb 0 (List.length names) || Nat.ltb 0 (List.length types) then
    name_filtered_list <- filter_by_name Config.name names items ;;
    type_filtered_list <-
      filter_by_name (fun _i => VStr (Config.object_type _i)) types items ;;
    if Nat.ltb 0 (List.length names) && Nat.ltb 0 (List.length types) then
      Ok (PySet (intersection (same_config E)
                   (distinct (same_config E) name_filtered_list)
                   (distinct (same_config E) type_filtered_list)))
    else if Nat.ltb 0 (List.length names) then
      Ok (set (same_config E) name_filtered_list)
    else if Nat.ltb 0 (List.length types) then
      Ok (set (same_config E) type_filtered_list)
    else Ok (PyList items)
  else Ok (PyList items).

Definition istio_config_list (filters : list value) : M (collection Config.t) :=
  sorted <~ lift (sort_filters filters) ;;
  namespace_list <~ scope (f_namespaces sorted) ;;
  found <~ forM namespace_configs namespace_list ;;
  lift (apply_filters (istio_names sorted) (istio_types sorted) (List.concat found)).

(** *** Details *)

(** [if _data[key]: config_data = _data[key]] *)
Definition pick (_data : value) (config_data : option value) (key : string)
  : result (option value) :=
  x <- getitem _data key ;;
  if truthy x then y <- getitem _data key ;; Ok (Some y)
  else Ok config_data.

Definition istio_config_details (namespace object_type object_name : value)
  : M (option IstioConfigDetails.t) :=
  _data <~ get_response "istioConfigDetails"
             [("namespace", namespace); ("object_type", object_type);
              ("object", object_name)] ;;
  if truthy _data then
    config_data <~ lift (foldR (pick _data) None
                           ["destinationRule"; "rule"; "virtualService"; "quotaSpec";
                            "quotaSpecBinding"; "gateway"; "serviceEntry"]) ;;
    match config_data with
    | Some config_data =>
        if truthy config_data then
          name <~ lift (metadata_name config_data) ;;
          _type <~ lift (getitem _data "objectType") ;;
          validation <~ get_istio_config_validation namespace object_type object_name ;;
          error_messages <~ get_istio_config_messages namespace object_type object_name ;;
          ret (Some (IstioConfigDetails.mk name _type (dumps E config_data)
                       validation error_messages))
        else ret None
    | None => ret None
    end
  else ret None.

(** One token of the ports summary:
    ['{}{} ({}) '.format(protocol, ' ' + name if name != '' else '', port)]. *)
Definition port_token (_port : value) : result string :=
  protocol <- getitem _port "protocol" ;;
  name <- getitem _port "name" ;;
  named <- (if negb (eqb name (VStr "")) then
              name' <- getitem _port "name" ;; str_add " " name'
            else Ok "") ;;
  port <- getitem _port "port" ;;
  Ok (str protocol ++ named ++ " (" ++ str port ++ ") ").

(** [_ports = ''; for _port in ports: _ports += ...] *)
Definition ports_summary (ports : value) : result string :=
  l <- iter ports ;;
  tokens <- forR port_token l ;;
  Ok (String.concat "" tokens).

(** [d[k] = v] on a dictionary with keys of any hashable kind. *)
Fixpoint dict_set {A} (d : list (value * A)) (k : value) (v : A) : list (value * A) :=
  match d with
  | [] => [(k, v)]
  | (k', v') :: d' => if eqb k' k then (k', v) :: d' else (k', v') :: dict_set d' k v
  end.

Definition get_subset_labels (subsets : value) : result (list (value * list string)) :=
  if truthy subsets then
    l <- iter subsets ;;
    foldR (fun _labels _subset =>
      has_name <- contains (VStr "name") _subset ;;
      has_labels <- (if has_name then contains (VStr "labels") _subset else Ok false) ;;
      if has_labels then
        labels <- getitem _subset "labels" ;;
        kvs <- dict_items labels ;;
        let _values := map (fun kv => fst kv ++ str (snd kv)) kvs in
        name <- getitem _subset "name" ;;
        key <- hashable name ;;
        Ok (dict_set _labels key _values)
      else Ok _labels) [] l
  else Ok [].

(** [x[k] if k in x else None] *)
Definition get_or_none (x : value) (k : string) (get : value -> result value)
  : result value :=
  b <- contains (VStr k) x ;;
  if b then get x else Ok VNone.

Definition route_weight (_route : value) : result VirtualServiceWeight.t :=
  d <- getitem _route "destination" ;;
  host <- getitem d "host" ;;
  d1 <- getitem _route "destination" ;;
  subset <- get_or_none d1 "subset"
              (fun _ => d' <- getitem _route "destination" ;; getitem d' "subset") ;;
  d2 <- getitem _route "destination" ;;
  port <- get_or_none d2 "port"
            (fun _ => d' <- getitem _route "destination" ;;
                      p <- getitem d' "port" ;; getitem p "number") ;;
  d3 <- getitem _route "destination" ;;
  status <- get_or_none d3 "status"
              (fun _ => d' <- getitem _route "destination" ;; getitem d' "status") ;;
  has_weight <- contains (VStr "weight") _route ;;
  nonzero <- (if has_weight then
                w <- getitem _route "weight" ;; Ok (negb (eqb w (VInt 0)))
              else Ok false) ;;
  weight <- (if nonzero then getitem _route "weight" else Ok VNone) ;;
  Ok (VirtualServiceWeight.mk host subset port status weight).

(** [v[k] and len(v[k]['items']) > 0] *)
Definition has_items (v : value) (k : string) : result bool :=
  x <- getitem v k ;;
  if truthy x then
    x' <- getitem v k ;;
    nonempty x' "items"
  else Ok false.

Definition service_virtual_service (_vs_data : value) : M VirtualService.t :=
  routes <~ lift (spec <- getitem _vs_data "spec" ;;
                  http <- getitem spec "http" ;;
                  first <- getitem0 http ;;
                  route <- getitem first "route" ;;
                  iter route) ;;
  _weights <~ lift (forR route_weight routes) ;;
  ns <~ lift (m <- getitem _vs_data "metadata" ;; getitem m "namespace") ;;
  object_name <~ lift (metadata_name _vs_data) ;;
  status <~ get_istio_config_validation ns (VStr "virtualservices") object_name ;;
  lift (name <- metadata_name _vs_data ;;
        ts <- (m <- getitem _vs_data "metadata" ;; getitem m "creationTimestamp") ;;
        created_at <- parse_from_rest E ts ;;
        resource_version <- (m <- getitem _vs_data "metadata" ;; getitem m "resourceVersion") ;;
        hosts <- (spec <- getitem _vs_data "spec" ;; getitem spec "hosts") ;;
        Ok (VirtualService.mk status name created_at resource_version hosts _weights)).

Definition service_destination_rule (_dr_data : value) : M DestinationRule.t :=
  ns <~ lift (m <- getitem _dr_data "metadata" ;; getitem m "namespace") ;;
  object_name <~ lift (metadata_name _dr_data) ;;
  status <~ get_istio_config_validation ns (VStr "destinationrules") object_name ;;
  lift (name <- metadata_name _dr_data ;;
        host <- (spec <- getitem _dr_data "spec" ;; getitem spec "host") ;;
        tp <- (spec <- getitem _dr_data "spec" ;; getitem spec "trafficPolicy") ;;
        traffic_policy <- to_linear_string E tp ;;
        ss <- (spec <- getitem _dr_data "spec" ;; getitem spec "subsets") ;;
        labels <- get_subset_labels ss ;;
        subsets <- labels_to_linear_string E labels ;;
        ts <- (m <- getitem _dr_data "metadata" ;; getitem m "creationTimestamp") ;;
        created_at <- parse_from_rest E ts ;;
        resource_version <- (m <- getitem _dr_data "metadata" ;; getitem m "resourceVersion") ;;
        Ok (DestinationRule.mk status name host traffic_policy subsets created_at
              resource_version)).

Definition service_details (namespace service_name : value)
  : M (option Details.ServiceDetails) :=
  _service_data <~ get_response "serviceDetails"
                     [("namespace", namespace); ("service", service_name)] ;;
  if truthy _service_data then
    listed <~ service_list [namespace] [service_name] ;;
    _service_rest <~ lift (pop (choice E) listed) ;;
    workloads <~ lift (
      w <- getitem _service_data "workloads" ;;
      if truthy w then
        w' <- getitem _service_data "workloads" ;;
        l <- iter w' ;;
        forR (fun _wl_data =>
          name <- getitem _wl_data "name" ;;
          workload_type <- getitem _wl_data "type" ;;
          labels <- get_labels _wl_data ;;
          ts <- getitem _wl_data "createdAt" ;;
          created_at <- parse_from_rest E ts ;;
          resource_version <- getitem _wl_data "resourceVersion" ;;
          Ok (Details.mkWorkloadDetails name Default workload_type created_at
                resource_version Default labels Default Default Default Default
                Default Default)) l
      else Ok []) ;;
    source_workloads <~ lift (
      deps <- getitem _service_data "dependencies" ;;
      if truthy deps then
        deps' <- getitem _service_data "dependencies" ;;
        l <- iter deps' ;;
        forR (fun _wl_data =>
          deps'' <- getitem _service_data "dependencies" ;;
          sources <- subscript deps'' _wl_data ;;
          names <- iter sources ;;
          _wl_names <- forR (fun _wl_name => getitem _wl_name "name") names ;;
          Ok (SourceWorkload.mk _wl_data _wl_names)) l
      else Ok []) ;;
    some_vs <~ lift (has_items _service_data "virtualServices") ;;
    virtual_services <~ (
      if some_vs then
        l <~ lift (x <- getitem _service_data "virtualServices" ;;
                   i <- getitem x "items" ;; iter i) ;;
        forM service_virtual_service l
      else ret []) ;;
    some_dr <~ lift (has_items _service_data "destinationRules") ;;
    destination_rules <~ (
      if some_dr then
        l <~ lift (x <- getitem _service_data "destinationRules" ;;
                   i <- getitem x "items" ;; iter i) ;;
        forM service_destination_rule l
      else ret []) ;;
    _ports <~ lift (svc <- getitem _service_data "service" ;;
                    ports <- getitem svc "ports" ;;
                    ports_summary ports) ;;
    name <~ lift (svc <- getitem _service_data "service" ;; getitem svc "name") ;;
    created_at <~ lift (svc <- getitem _service_data "service" ;;
                        ts <- getitem svc "createdAt" ;; parse_from_rest E ts) ;;
    resource_version <~ lift (svc <- getitem _service_data "service" ;;
                              getitem svc "resourceVersion") ;;
    service_type <~ lift (svc <- getitem _service_data "service" ;; getitem svc "type") ;;
    ip <~ lift (svc <- getitem _service_data "service" ;; getitem svc "ip") ;;
    labels <~ lift (svc <- getitem _service_data "service" ;; get_labels svc) ;;
    health <~ get_service_health namespace service_name ;;
    ret (Some (Details.mkServiceDetails name
                 (Given (Service.istio_sidecar _service_rest)) created_at
                 resource_version service_type ip (strip _ports) labels (Given health)
                 (Given workloads) (Given source_workloads) (Given virtual_services)
                 (Given destination_rules)))
  else ret None.

(** *** [workload_details]: the pods *)

(** The body of [for _pod_data in _workload_data['pods']]. *)
Definition workload_pod (_workload_data _pod_data : value) : result WorkloadPod.t :=
  ic <- getitem _pod_data "istioContainers" ;;
  _istio_containers <- (if truthy ic then
                          ic' <- getitem _pod_data "istioContainers" ;;
                          c <- getitem0 ic' ;; getitem c "image"
                        else Ok (VStr "")) ;;
  iic <- getitem _pod_data "istioInitContainers" ;;
  _istio_init_containers <- (if truthy iic then
                               iic' <- getitem _pod_data "istioInitContainers" ;;
                               c <- getitem0 iic' ;; getitem c "image"
                             else Ok (VStr "")) ;;
  owner_name <- (cb <- getitem _pod_data "createdBy" ;;
                 c <- getitem0 cb ;; getitem c "name") ;;
  owner_kind <- (cb <- getitem _pod_data "createdBy" ;;
                 c <- getitem0 cb ;; getitem c "kind") ;;
  let _created_by := str owner_name ++ " (" ++ str owner_kind ++ ")" in
  name <- getitem _pod_data "name" ;;
  ts <- getitem _pod_data "createdAt" ;;
  created_at <- from_rest_to_ui E ts ;;
  labels <- get_labels _pod_data ;;
  sidecar <- getitem _workload_data "istioSidecar" ;;
  status <- get_pod_status sidecar _pod_data ;;
  phase <- getitem _pod_data "status" ;;
  Ok (WorkloadPod.mk (str name) created_at _created_by labels
        (str _istio_init_containers) (str _istio_containers) status phase).

(** [itertools.groupby(l, key)]: the maximal runs of adjacent elements with
    equal keys, each with its key. *)
Fixpoint groupby {A} (key : A -> string) (l : list A) : list (string * list A) :=
  match l with
  | [] => []
  | x :: xs =>
      match groupby key xs with
      | (k, g) :: gs =>
          if String.eqb (key x) k then (k, x :: g) :: gs
          else (key x, [x]) :: (k, g) :: gs
      | [] => [(key x, [x])]
      end
  end.

(** The local variables that the grouping loop reads and writes: [_pod]
    (unbound until a pod was built) and [_pods]. *)
Record locals : Type := mkLocals {
  _pod : option WorkloadPod.t;
  _pods : list WorkloadPod.t
}.

(** The body of [for _created_by, _grouped_pods in groupby(...)]. *)
Definition group_row (st : locals) (group : string * list WorkloadPod.t) : result locals :=
  let (_created_by, _workload_pods) := group in
  match _workload_pods with
  | first :: _ :: _ =>
      match _pod st with
      | None => Raise UnboundLocalError
      | Some p =>
          let row :=
            WorkloadPod.mk
              (drop_last 5 (WorkloadPod.name p) ++ "... (" ++
               str_of_nat (List.length _workload_pods) ++ " replicas)")
              (WorkloadPod.created_at p ++ " and " ++
               WorkloadPod.created_at (last _workload_pods first))
              _created_by
              (WorkloadPod.labels first)
              (WorkloadPod.istio_init_containers first)
              (WorkloadPod.istio_containers first)
              (WorkloadPod.status first)
              (WorkloadPod.phase first) in
          Ok (mkLocals (Some row) (_pods st ++ [row])%list)
      end
  | [first] =>
      let row :=
        WorkloadPod.mk
          (WorkloadPod.name first ++ " (1 replica)")
          (WorkloadPod.created_at first)
          _created_by
          (WorkloadPod.labels first)
          (WorkloadPod.istio_init_containers first)
          (WorkloadPod.istio_containers first)
          (WorkloadPod.status first)
          (WorkloadPod.phase first) in
      Ok (mkLocals (Some row) (_pods st ++ [row])%list)
  | [] => Ok st
  end.

(** Lines 569-600: the grouping of [_all_pods], entered with [_pod] as the
    loop that built [_all_pods] left it. *)
Definition group_pods (_pod0 : option WorkloadPod.t) (_all_pods : list WorkloadPod.t)
  : result (list WorkloadPod.t) :=
  st <- foldR group_row (mkLocals _pod0 []) (groupby WorkloadPod.created_by _all_pods) ;;
  Ok (_pods st).

(** [_pod] after the loop that builds [_all_pods]: the last pod built. *)
Definition last_pod (_all_pods : list WorkloadPod.t) : option WorkloadPod.t :=
  match rev _all_pods with
  | p :: _ => Some p
  | [] => None
  end.

(** Lines 547-600: from the pods of the document to the rows shown. *)
Definition workload_pods (_workload_data : value) : result (list WorkloadPod.t) :=
  pods <- getitem _workload_data "pods" ;;
  _all_pods <- (if truthy pods then
                  pods' <- getitem _workload_data "pods" ;;
                  l <- iter pods' ;;
                  forR (workload_pod _workload_data) l
                else Ok []) ;;
  group_pods (last_pod _all_pods) _all_pods.

Definition workload_details (namespace workload_name : value)
  : M (option Details.WorkloadDetails) :=
  _workload_data <~ get_response "workloadDetails"
                      [("namespace", namespace); ("workload", workload_name)] ;;
  if truthy _workload_data then
    listed <~ workload_list [namespace] [workload_name] ;;
    _workload_rest <~ lift (pop (choice E) listed) ;;
    _services <~ lift (
      svcs <- getitem _workload_data "services" ;;
      if truthy svcs then
        svcs' <- getitem _workload_data "services" ;;
        l <- iter svcs' ;;
        forR (fun _ws_data =>
          _ports <- (ports <- getitem _ws_data "ports" ;; ports_summary ports) ;;
          name <- getitem _ws_data "name" ;;
          ts <- getitem _ws_data "createdAt" ;;
          created_at <- parse_from_rest E ts ;;
          service_type <- getitem _ws_data "type" ;;
          ip <- getitem _ws_data "ip" ;;
          labels <- get_labels _ws_data ;;
          resource_version <- getitem _ws_data "resourceVersion" ;;
          Ok (Details.mkServiceDetails name Default created_at resource_version
                service_type ip (strip _ports) labels Default Default Default
                Default Default)) l
      else Ok []) ;;
    _destination_services <~ lift (
      ds <- getitem _workload_data "destinationServices" ;;
      if truthy ds then
        ds' <- getitem _workload_data "destinationServices" ;;
        l <- iter ds' ;;
        forR (fun _ds_data =>
          name <- getitem _ds_data "name" ;;
          ns <- getitem _ds_data "namespace" ;;
          Ok (DestinationService.mk workload_name name ns)) l
      else Ok []) ;;
    rows <~ lift (workload_pods _workload_data) ;;
    name <~ lift (getitem _workload_data "name") ;;
    workload_type <~ lift (getitem _workload_data "type") ;;
    created_at <~ lift (ts <- getitem _workload_data "createdAt" ;; parse_from_rest E ts) ;;
    resource_version <~ lift (getitem _workload_data "resourceVersion") ;;
    health_name <~ lift (getitem _workload_data "name") ;;
    health <~ get_workload_health namespace health_name ;;
    labels <~ lift (get_labels _workload_data) ;;
    ret (Some (Details.mkWorkloadDetails name
                 (Given (Workload.istio_sidecar _workload_rest)) workload_type
                 created_at resource_version (Given health) labels
                 (Given (List.length rows)) (Given (List.length _services))
                 (Given (List.length _destination_services))
                 (Given _destination_services) (Given rows) (Given _services)))
  else ret None.

Definition application_details (namespace application_name : value)
  : M (option ApplicationDetails.t) :=
  _application_data <~ get_response "appDetails"
                         [("namespace", namespace); ("app", application_name)] ;;
  if truthy _application_data then
    listed <~ application_list [namespace] [application_name] ;;
    _application_rest <~ lift (pop (choice E) listed) ;;
    _workloads <~ lift (
      w <- getitem _application_data "workloads" ;;
      if truthy w then
        w' <- getitem _application_data "workloads" ;;
        l <- iter w' ;;
        forR (fun _wl_data =>
          name <- getitem _wl_data "workloadName" ;;
          istio_sidecar <- getitem _wl_data "istioSidecar" ;;
          Ok (AppWorkload.mk name istio_sidecar)) l
      else Ok []) ;;
    _services <~ lift (
      b <- contains (VStr "serviceNames") _application_data ;;
      if b then
        names <- getitem _application_data "serviceNames" ;;
        iter names
      else Ok []) ;;
    name <~ lift (getitem _application_data "name") ;;
    app_name <~ lift (getitem _application_data "name") ;;
    health <~ get_app_health namespace app_name ;;
    ret (Some (ApplicationDetails.mk name
                 (Application.istio_sidecar _application_rest) health
                 _workloads _services))
  else ret None.

End KialiExtendedClient.

(** ** [kiali_qe/rest/openshift_api.py]: [delete_istio_config] *)

Section OpenshiftExtendedClient.

(** The cluster behind the dynamic client. *)
Variable cluster : Type.

(** [self._dyn_client.resources.get(kind=kind, api_version=api_version)
      .delete(name=name, namespace=namespace)]: the lookup of the resource
    kind and the deletion, as the underlying client carries them out. *)
Variable resource_delete :
  forall (kind api_version name namespace : string), cluster -> result value * cluster.

(** [try: ... except NotFoundError: pass]; the method returns [None]. *)
Definition delete_istio_config (name namespace kind api_version : string)
  (c : cluster) : result unit * cluster :=
  match resource_delete kind api_version name namespace c with
  | (Ok _, c') => (Ok tt, c')
  | (Raise NotFoundError, c') => (Ok tt, c')
  | (Raise e, c') => (Raise e, c')
  end.

End OpenshiftExtendedClient.

(** ** More of [kiali_qe/entities/overview.py]: [__str__] and [__repr__] *)

(** [template.format(args)] for a template whose fields are all [{}]: each
    field takes the next argument in turn; a field with no argument left
    raises [IndexError]; arguments left over are ignored. *)
Fixpoint format (template : string) (args : list string) : result string :=
  match template with
  | String "{" (String "}" rest) =>
      match args with
      | a :: args' => r <- format rest args' ;; Ok (a ++ r)
      | [] => Raise IndexError
      end
  | String c rest => r <- format rest args ;; Ok (String c r)
  | EmptyString => Ok ""
  end.

(** [Overview.__str__]; the literal runs over two lines of the source, and
    the indentation of the second line is part of it. [str] is [str()]. *)
Definition Overview_str (str : value -> string) (self : Overview.t) : result string :=
  format
    "overview_type:{}, namespace:{}, items:{},             healthy:{}, unhealthy:{}, degraded:{}"
    [str (Overview.overview_type self); str (Overview.namespace self);
     str (Overview.items self); str (Overview.healthy self);
     str (Overview.unhealthy self); str (Overview.degraded self)].

(** [Overview.__repr__] of an instance of [Overview] itself. [repr] is
    [repr()]. The template has six fields and is given seven arguments. *)
Definition Overview_repr (repr : value -> string) (self : Overview.t) : result string :=
  format "{}({}, {}, {}, {}, {})"
    ["Overview"; repr (Overview.overview_type self); repr (Overview.namespace self);
     repr (Overview.items self); repr (Overview.healthy self);
     repr (Overview.unhealthy self); repr (Overview.degraded self)].

(** ** More of [kiali_qe/rest/openshift_api.py]: listings *)

(** What [OpenshiftExtendedClient] builds from the resources of the cluster:
    [IstioConfig(name, namespace, object_type)] (no validation is given) and
    [Rule(name, namespace, object_type)]. *)
Module Resource.
Inductive t : Type :=
| IstioConfig (name namespace : value) (object_type : string)
| Rule (name namespace : value) (object_type : string).

Definition name (c : t) : value :=
  match c with
  | IstioConfig n _ _ | Rule n _ _ => n
  end.

Definition namespace (c : t) : value :=
  match c with
  | IstioConfig _ ns _ | Rule _ ns _ => ns
  end.

Definition object_type (c : t) : string :=
  match c with
  | IstioConfig _ _ ty | Rule _ _ ty => ty
  end.
End Resource.

(** The properties of the class that stand for a kind of resource, each with
    the [kind] and [api_version] it asks the dynamic client for (lines
    26-123). *)
Definition resource_properties : list (string * (string * string)) :=
  [("_namespace", ("Namespace", "v1"));
   ("_service", ("Service", "v1"));
   ("_cronjob", ("CronJob", "v1beta1"));
   ("_daemonset", ("DaemonSet", "v1"));
   ("_deployment", ("Deployment", "v1"));
   ("_deploymentconfig", ("DeploymentConfig", "v1"));
   ("_job", ("Job", "v1"));
   ("_pod", ("Pod", "v1"));
   ("_replicaset", ("ReplicaSet", "v1"));
   ("_replicationcontroller", ("ReplicationController", "v1"));
   ("_statefulset", ("StatefulSet", "v1"));
   ("_gateway", ("Gateway", "v1alpha3"));
   ("_virtualservice", ("VirtualService", "v1alpha3"));
   ("_destinationrule", ("DestinationRule", "v1alpha3"));
   ("_serviceentry", ("ServiceEntry", "v1alpha3"));
   ("_rule", ("rule", "v1alpha2"));
   ("_logentry", ("logentry", "v1alpha2"));
   ("_kubernetes", ("kubernetes", "v1alpha2"));
   ("_metric", ("metric", "v1alpha2"));
   ("_kubernetesenv", ("kubernetesenv", "v1alpha2"));
   ("_prometheus", ("prometheus", "v1alpha2"));
   ("_stdio", ("stdio", "v1alpha2"));
   ("_quotaspec", ("QuotaSpec", "v1alpha2"));
   ("_quotaspecbinding", ("QuotaSpecBinding", "v1alpha2"))].

Section OpenshiftListings.

(** The cluster behind the dynamic client. *)
Variable cluster : Type.

(** [self._resource(kind, api_version).get(...)] with the keywords given:
    the response of the dynamic client. *)
Variable resource_get :
  string -> string -> list (string * value) -> cluster -> result value * cluster.

(** Attribute access [o.name], [hasattr(o, name)] and subscription [o[key]]
    on the objects of the dynamic client, whose class is not in this
    repository. *)
Variable field : value -> string -> result value.
Variable has_field : value -> string -> bool.
Variable item : value -> string -> result value.

(** [str()] of a list or a dictionary. *)
Variable container_str : value -> string.

(** A method of the client on the cluster. *)
Definition C (A : Type) : Type := cluster -> result A * cluster.

Definition retC {A} (a : A) : C A := fun c => (Ok a, c).

Definition liftC {A} (r : result A) : C A := fun c => (r, c).

Definition bindC {A B} (m : C A) (k : A -> C B) : C B :=
  fun c =>
    match m c with
    | (Ok a, c') => k a c'
    | (Raise e, c') => (Raise e, c')
    end.

Notation "x <~ c ;; k" := (bindC c (fun x => k))
  (at level 61, c at next level, right associativity).

Fixpoint forC {A B} (f : A -> C B) (l : list A) : C (list B) :=
  match l with
  | [] => retC []
  | x :: xs => y <~ f x ;; ys <~ forC f xs ;; retC (y :: ys)
  end.

(** [str(v)] *)
Definition to_str (v : value) : string :=
  match v with
  | VNone => "None"
  | VBool true => "True"
  | VBool false => "False"
  | VInt z => str_of_Z z
  | VStr s => s
  | VList _ | VDict _ => container_str v
  end.

(** [getattr(self, attribute_name).get(...)] for an attribute that is one of
    the resource properties; any other name is taken to have no such
    attribute. *)
Definition property_get (attribute_name : string) (kwargs : list (string * value))
  : C value :=
  match lookup attribute_name resource_properties with
  | Some (kind, api_version) => resource_get kind api_version kwargs
  | None => liftC (Raise AttributeError)
  end.

(** [_item.metadata.name] and [_item.metadata.namespace] *)
Definition metadata (_item : value) (attribute : string) : result value :=
  m <- field _item "metadata" ;;
  field m attribute.

Definition os_namespace_list : C (list value) :=
  _response <~ property_get "_namespace" [] ;;
  liftC (items <- field _response "items" ;;
         l <- iter items ;;
         forR (fun _item => metadata _item "name") l).

(** [try: ...get(name=namespace); return True; except NotFoundError: return
    False] *)
Definition namespace_exists (namespace : value) : C bool :=
  fun c =>
    match property_get "_namespace" [("name", namespace)] c with
    | (Ok _, c') => (Ok true, c')
    | (Raise NotFoundError, c') => (Ok false, c')
    | (Raise e, c') => (Raise e, c')
    end.

(** [except (KeyError, AttributeError, TypeError)] *)
Definition lookup_failure (e : exn) : bool :=
  match e with
  | KeyError | AttributeError | TypeError => true
  | _ => false
  end.

Definition _contains_sidecar (_item : value) : result bool :=
  match (spec <- field _item "spec" ;;
         template <- field spec "template" ;;
         m <- field template "metadata" ;;
         annotations <- field m "annotations" ;;
         item annotations "sidecar.istio.io/status") with
  | Ok VNone => Ok false
  | Ok _ => Ok true
  | Raise e => if lookup_failure e then Ok false else Raise e
  end.

Definition _get_label (_item : value) (label : string) : result value :=
  match (m <- field _item "metadata" ;;
         labels <- field m "labels" ;;
         item labels label) with
  | Ok v => Ok v
  | Raise e => if lookup_failure e then Ok VNone else Raise e
  end.

(** The responses gathered into [_raw_items]: one request per namespace
    given, or one request for the whole cluster. *)
Definition raw_items (attribute_name : string) (namespaces : list value) : C (list value) :=
  let gather (kwargs : list (string * value)) : C (list value) :=
    _response <~ property_get attribute_name kwargs ;;
    if has_field _response "items" then
      liftC (items <- field _response "items" ;; iter items)
    else retC [] in
  if Nat.ltb 0 (List.length namespaces) then
    found <~ forC (fun _namespace => gather [("namespace", _namespace)]) namespaces ;;
    retC (List.concat found)
  else gather [].

(** The body of [for _item in _raw_items] of [_resource_list]. *)
Definition resource_of (resource_type : string) (_item : value) : result Resource.t :=
  if String.eqb resource_type (IstioConfigObjectType_text RULE) then
    name <- metadata _item "name" ;;
    namespace <- metadata _item "namespace" ;;
    Ok (Resource.Rule name namespace resource_type)
  else if String.eqb resource_type (IstioConfigObjectType_text ADAPTER) ||
          String.eqb resource_type (IstioConfigObjectType_text TEMPLATE) then
    name <- metadata _item "name" ;;
    namespace <- metadata _item "namespace" ;;
    kind <- field _item "kind" ;;
    Ok (Resource.Rule name namespace (resource_type ++ ": " ++ to_str kind))
  else
    name <- metadata _item "name" ;;
    namespace <- metadata _item "namespace" ;;
    Ok (Resource.IstioConfig name namespace resource_type).

(** [__eq__] (with [__hash__]) of the entities, as [set] uses it. *)
Variable same_resource : Resource.t -> Resource.t -> bool.

Definition _resource_list (attribute_name resource_type : string)
  (namespaces resource_names : list value) : C (collection Resource.t) :=
  _raw_items <~ raw_items attribute_name namespaces ;;
  items <~ liftC (forR (resource_of resource_type) _raw_items) ;;
  if Nat.ltb 0 (List.length resource_names) then
    filtered_list <~ liftC (filter_by_name Resource.name resource_names items) ;;
    retC (set same_resource filtered_list)
  else retC (PyList items).

(** The thirteen listings of [istio_config_list], in order. *)
Definition os_istio_config_kinds : list (string * string) :=
  [("_gateway", "Gateway"); ("_virtualservice", "VirtualService");
   ("_destinationrule", "DestinationRule"); ("_serviceentry", "ServiceEntry");
   ("_rule", "Rule"); ("_kubernetesenv", "Adapter"); ("_prometheus", "Adapter");
   ("_stdio", "Adapter"); ("_logentry", "Template"); ("_kubernetes", "Template");
   ("_metric", "Template"); ("_quotaspec", "QuotaSpec");
   ("_quotaspecbinding", "QuotaSpecBinding")].

Definition os_istio_config_list (namespaces config_names : list value)
  : C (list Resource.t) :=
  found <~ forC (fun k => listed <~ _resource_list (fst k) (snd k) namespaces config_names ;;
                          retC (elements listed)) os_istio_config_kinds ;;
  retC (List.concat found).

End OpenshiftListings.

(** ** Fixtures: small backends to run the client against *)

Module Fixture.

(** A backend that answers from a table and counts the requests made. *)
Definition env (answer : string -> list (string * value) -> list (string * string) ->
                         result value) : Env :=
  {| state := nat;
     request := fun method_name path params n => (answer method_name path params, S n);
     ServiceHealth_is_healthy := fun _ => Ok HealthType_HEALTHY;
     WorkloadHealth_is_healthy := fun _ => Ok HealthType_HEALTHY;
     ApplicationHealth_is_healthy := fun _ => Ok HealthType_HEALTHY;
     parse_from_rest := fun _ => Ok (Datetime 0);
     from_rest_to_ui := fun v => match v with VStr s => Ok s | _ => Raise TypeError end;
     to_linear_string := fun _ => Ok "";
     labels_to_linear_string := fun _ => Ok "";
     dumps := fun _ => "";
     repr := fun _ => "";
     same_service := fun a b => eqb (Service.name a) (Service.name b);
     same_application := fun a b => eqb (Application.name a) (Application.name b);
     same_workload := fun a b => eqb (Workload.name a) (Workload.name b);
     same_config := Config.same;
     choice := 0 |}.

(** A backend on which every detail document is empty. *)
Definition nothing : Env := env (fun _ _ _ => Ok (VDict [])).

(** A policy that has a name and nothing else. *)
Definition named (n : string) : value :=
  VDict [("metadata", VDict [("name", VStr n)])].

(** An Istio config with one adapter, [handler], of kind [prometheus], and
    one virtual service and one gateway, both named [foobar]. *)
Definition istio_config : value :=
  VDict [("destinationRules", VDict []);
         ("rules", VList []);
         ("adapters", VList [VDict [("metadata", VDict [("name", VStr "handler")]);
                                    ("adapter", VStr "prometheus")]]);
         ("templates", VList []);
         ("virtualServices", VDict [("items", VList [named "foobar"])]);
         ("quotaSpecs", VList []);
         ("quotaSpecBindings", VList []);
         ("gateways", VList [named "foobar"]);
         ("serviceEntries", VList [])].

(** A backend with one namespace, [bookinfo], that holds [istio_config] and
    one application, [reviews], without a health document; every object has
    a validation document with no checks. *)
Definition bookinfo : Env :=
  env (fun method_name _ params =>
         if String.eqb method_name "namespaceList" then
           Ok (VList [VDict [("name", VStr "bookinfo")]])
         else if String.eqb method_name "istioConfigList" then Ok istio_config
         else if String.eqb method_name "appList" then
           Ok (VDict [("applications", VList [VDict [("name", VStr "reviews");
                                                      ("istioSidecar", VBool true)]])])
         else if String.eqb method_name "istioConfigDetails" then
           Ok (VDict [("validation", VDict [("name", VStr "foobar");
                                            ("checks", VList [])])])
         else Ok VNone).

(** A backend whose validation document for every object is [validation]. *)
Definition validating (validation : value) : Env :=
  env (fun _ _ _ => Ok (VDict [("validation", validation)])).

Definition check (severity message : string) : value :=
  VDict [("severity", VStr severity); ("message", VStr message)].

(** A validation document with the given checks. *)
Definition checked (checks : list value) : value :=
  VDict [("name", VStr "reviews"); ("objectType", VStr "virtualservice");
         ("valid", VBool false); ("checks", VList checks)].

(** The filters of the Istio config page: type [Gateway] and name [foo]. *)
Definition gateway_foo : list value :=
  [VDict [("name", VStr "Istio Type"); ("value", VStr "Gateway")];
   VDict [("name", VStr "Istio Name"); ("value", VStr "foo")]].

Definition pod (name created_at created_by : string) : WorkloadPod.t :=
  WorkloadPod.mk name created_at created_by (VDict []) "" "" VALID (VStr "Running").

(** Two replicas of one replica set. *)
Definition two_replicas : list WorkloadPod.t :=
  [pod "details-v1-aaaaa" "t1" "details-v1 (ReplicaSet)";
   pod "details-v1-bbbbb" "t2" "details-v1 (ReplicaSet)"].

(** Five pods owned [A, A, A, B, B]. *)
Definition five_pods : list WorkloadPod.t :=
  [pod "alpha-11111" "t1" "A"; pod "alpha-22222" "t2" "A"; pod "alpha-33333" "t3" "A";
   pod "beta-44444" "t4" "B"; pod "beta-55555" "t5" "B"].

(** A cluster as the list of the resources it holds:
    (kind, api_version, namespace, name). *)
Definition resource : Type := (string * string * string * string)%type.

Definition same_resource (a b : resource) : bool :=
  let '(k, v, ns, n) := a in
  let '(k', v', ns', n') := b in
  String.eqb k k' && String.eqb v v' && String.eqb ns ns' && String.eqb n n'.

(** Deleting what is there removes it; deleting what is not raises
    [NotFoundError]. *)
Definition cluster_delete (kind api_version name namespace : string)
  (c : list resource) : result value * list resource :=
  let r := (kind, api_version, namespace, name) in
  if existsb (same_resource r) c
  then (Ok (VDict [("status", VStr "Success")]),
        filter (fun x => negb (same_resource r x)) c)
  else (Raise NotFoundError, c).

End Fixture.

(** ** More fixtures *)

Module Sample.

(** A backend whose listings carry [null] where the items should be. *)
Definition hollow : Env :=
  Fixture.env (fun _ _ _ =>
                 Ok (VDict [("services", VNone); ("applications", VNone);
                            ("workloads", VNone)])).

(** A backend with the services [reviews] and [ratings] in every namespace,
    and no health document for either. *)
Definition two_services : Env :=
  Fixture.env (fun method_name _ _ =>
                 if String.eqb method_name "serviceList" then
                   Ok (VDict [("services",
                               VList [VDict [("name", VStr "reviews");
                                             ("istioSidecar", VBool true)];
                                      VDict [("name", VStr "ratings");
                                             ("istioSidecar", VBool false)]])])
                 else Ok VNone).

(** A backend on which the Istio config of every namespace has its nine
    categories, all empty. *)
Definition empty_config : Env :=
  Fixture.env (fun _ _ _ =>
                 Ok (VDict [("destinationRules", VDict []); ("rules", VList []);
                            ("adapters", VList []); ("templates", VList []);
                            ("virtualServices", VDict []); ("quotaSpecs", VList []);
                            ("quotaSpecBindings", VList []); ("gateways", VList []);
                            ("serviceEntries", VList [])])).

(** A config detail document that is there but holds no config. *)
Definition no_config : value :=
  VDict [("namespace", VDict [("name", VStr "bookinfo")]);
         ("objectType", VStr "gateways");
         ("destinationRule", VNone); ("rule", VNone); ("virtualService", VNone);
         ("quotaSpec", VNone); ("quotaSpecBinding", VNone); ("gateway", VNone);
         ("serviceEntry", VNone)].

(** A document that serves as a detail document and as an empty listing. *)
Definition document : value :=
  VDict [("name", VStr "reviews"); ("services", VList []);
         ("applications", VList []); ("workloads", VList [])].

(** A backend with no service, workload or application in any namespace,
    which still answers every detail request with a document. *)
Definition unlisted : Env :=
  Fixture.env (fun method_name _ _ =>
                 if String.eqb method_name "istioConfigDetails" then Ok no_config
                 else Ok document).

(** A workload document with three pods of one replica set. *)
Definition pod_data (name created_at : string) : value :=
  VDict [("name", VStr name); ("createdAt", VStr created_at);
         ("createdBy", VList [VDict [("name", VStr "reviews-v1"); ("kind", VStr "ReplicaSet")]]);
         ("istioContainers", VList [VDict [("image", VStr "proxyv2")]]);
         ("istioInitContainers", VNone);
         ("versionLabel", VBool true); ("appLabel", VBool true);
         ("status", VStr "Running")].

Definition three_pods : value :=
  VDict [("istioSidecar", VBool true);
         ("pods", VList [pod_data "reviews-v1-aaaaa" "t1"; pod_data "reviews-v1-bbbbb" "t2";
                         pod_data "reviews-v1-ccccc" "t3"])].

(** Objects of the dynamic client as dictionaries: an attribute that is not
    there reads as [None], and [None] has no attributes and no items. *)
Definition field (o : value) (name : string) : result value :=
  match o with
  | VDict d => Ok (match lookup name d with Some x => x | None => VNone end)
  | _ => Raise AttributeError
  end.

Definition item (o : value) (key : string) : result value :=
  match o with
  | VDict d => Ok (match lookup key d with Some x => x | None => VNone end)
  | _ => Raise TypeError
  end.

(** A cluster as the list of the names of its namespaces. *)
Definition namespaces_get (kind api_version : string) (kwargs : list (string * value))
  (c : list string) : result value * list string :=
  match lookup "name" kwargs with
  | Some (VStr n) =>
      if existsb (String.eqb n) c
      then (Ok (VDict [("metadata", VDict [("name", VStr n)])]), c)
      else (Raise NotFoundError, c)
  | _ => (Ok (VDict [("items", VList (map (fun n => VDict [("metadata",
                                                       VDict [("name", VStr n)])]) c))]), c)
  end.

(** The adapter [handler] of kind [prometheus], as the backend lists it and
    as the cluster holds it. *)
Definition handler_policy : value :=
  VDict [("metadata", VDict [("name", VStr "handler")]); ("adapter", VStr "prometheus")].

Definition handler_resource : value :=
  VDict [("kind", VStr "prometheus");
         ("metadata", VDict [("name", VStr "handler"); ("namespace", VStr "bookinfo")])].

End Sample.

(** ** Vocabulary of the statements *)

(** The counter that stands for a health value. *)
Definition bump (h : HealthType) (c : counters) : counters :=
  match h with
  | HealthType_HEALTHY => mkCounters (S (_healthy c)) (_unhealthy c) (_degraded c) (_na c)
  | HealthType_FAILURE => mkCounters (_healthy c) (S (_unhealthy c)) (_degraded c) (_na c)
  | HealthType_DEGRADED => mkCounters (_healthy c) (_unhealthy c) (S (_degraded c)) (_na c)
  | HealthType_NA => mkCounters (_healthy c) (_unhealthy c) (_degraded c) (S (_na c))
  end.

Definition total (c : counters) : nat :=
  _healthy c + _unhealthy c + _degraded c + _na c.

(** How many of [healths] are the member [x]. *)
Definition occurrences (x : HealthType) (healths : list (option HealthType)) : nat :=
  List.length (filter (fun h => health_is h x) healths).

(** How many of [healths] are a member of [HealthType] at all. *)
Definition recognized (healths : list (option HealthType)) : nat :=
  List.length (filter (fun h => match h with Some _ => true | None => false end) healths).

(** A check whose severity can be read and hashed. *)
Definition has_severity (check sev : value) : Prop :=
  getitem check "severity" = Ok sev /\ hashable sev = Ok sev.

(** The request that [get_istio_config_validation] makes. *)
Definition validation_path (namespace object_type object_name : value)
  : list (string * value) :=
  [("namespace", namespace); ("object_type", object_type); ("object", object_name)].

(** No two neighbours of [ks] are equal. *)
Fixpoint no_adjacent_equal (ks : list string) : Prop :=
  match ks with
  | k1 :: (k2 :: _) as rest => k1 <> k2 /\ no_adjacent_equal rest
  | _ => True
  end.

(** A run of pods with one owner: not empty, and every pod of it is created
    by the key of the run. *)
Definition run_of_owner (g : string * list WorkloadPod.t) : Prop :=
  snd g <> [] /\ Forall (fun p => WorkloadPod.created_by p = fst g) (snd g).

(** The row shown for the group [g]: it carries the owner of the group and its
    name ends in the replica count of the group. *)
Definition labelled (row : WorkloadPod.t) (g : string * list WorkloadPod.t) : Prop :=
  WorkloadPod.created_by row = fst g /\
  match snd g with
  | [] => False
  | [p] => WorkloadPod.name row = WorkloadPod.name p ++ " (1 replica)"
  | _ :: _ :: _ =>
      exists prefix,
        WorkloadPod.name row =
        prefix ++ "... (" ++ str_of_nat (List.length (snd g)) ++ " replicas)"
  end.

(** An adapter or template entry as the backend lists it: it has a name and,
    under [subkind], the name of its sub-kind. *)
Definition entry (subkind : string) (_policy name : value) (sub : string) : Prop :=
  metadata_name _policy = Ok name /\ getitem _policy subkind = Ok (VStr sub).

(** The item [i] matches the name filter [n]: [n in i.name]. *)
Definition matches_name (n : string) (i : Config.t) : Prop :=
  contains (VStr n) (Config.name i) = Ok true.

(** The item [i] matches the type filter [t]: [t in i.object_type]. *)
Definition matches_type (t : string) (i : Config.t) : Prop :=
  is_substring t (Config.object_type i) = true.

(** An item whose name is a string. *)
Definition named_by_string (i : Config.t) : Prop :=
  exists s, Config.name i = VStr s.

(** No member of [l] is the same as a later one. *)
Definition pairwise_distinct {A} (same : A -> A -> bool) (l : list A) : Prop :=
  ForallOrdPairs (fun x y => same x y = false) l.

(** [self] with another degraded count. *)
Definition with_degraded (self : Overview.t) (d : value) : Overview.t :=
  Overview.mk (Overview.overview_type self) (Overview.namespace self) (Overview.items self)
    (Overview.unhealthy self) (Overview.healthy self) d.

(** The nine categories of the Istio config of a namespace. *)
Definition categories : list string :=
  ["destinationRules"; "rules"; "adapters"; "templates"; "virtualServices";
   "quotaSpecs"; "quotaSpecBindings"; "gateways"; "serviceEntries"].

(** The seven entries of a config detail document that can hold the config. *)
Definition detail_keys : list string :=
  ["destinationRule"; "rule"; "virtualService"; "quotaSpec"; "quotaSpecBinding";
   "gateway"; "serviceEntry"].

(** The row of the group [g] takes after the first pod of the group: owner,
    labels, sidecar images, status and phase are those of that pod, and so
    is the creation time when the pod is alone in its group. *)
Definition from_first (row : WorkloadPod.t) (g : string * list WorkloadPod.t) : Prop :=
  match snd g with
  | [] => False
  | first :: rest =>
      WorkloadPod.created_by row = fst g /\
      WorkloadPod.labels row = WorkloadPod.labels first /\
      WorkloadPod.istio_init_containers row = WorkloadPod.istio_init_containers first /\
      WorkloadPod.istio_containers row = WorkloadPod.istio_containers first /\
      WorkloadPod.status row = WorkloadPod.status first /\
      WorkloadPod.phase row = WorkloadPod.phase first /\
      (rest = [] -> WorkloadPod.created_at row = WorkloadPod.created_at first)
  end.

(** ** General lemmas *)

Lemma forR_Forall2 {A B} (f : A -> result B) (P : A -> B -> Prop) (l : list A) :
  Forall (fun x => exists y, f x = Ok y /\ P x y) l ->
  exists ys, forR f l = Ok ys /\ Forall2 P l ys.
Proof.
  induction 1 as [| x xs [y [Hy HP]] _ [ys [Hys HF]]].
  - exists []. split; [reflexivity | constructor].
  - exists (y :: ys). simpl. rewrite Hy. simpl. rewrite Hys. simpl.
    split; [reflexivity | constructor; assumption].
Qed.

Lemma bind_ret (E : Env) {A B} (a : A) (k : A -> M E B) (s : state E) :
  bind (ret E a) k s = k a s.
Proof. reflexivity. Qed.

Lemma bind_lift (E : Env) {A B} (r : result A) (k : A -> M E B) (s : state E) :
  bind (lift E r) k s = match r with Ok a => k a s | Raise e => (Raise e, s) end.
Proof. reflexivity. Qed.

Lemma bind_ok (E : Env) {A B} (c : M E A) (k : A -> M E B) (s s1 : state E) (a : A) :
  c s = (Ok a, s1) -> bind c k s = k a s1.
Proof. intros H. unfold bind. rewrite H. reflexivity. Qed.

Lemma bind_raise (E : Env) {A B} (c : M E A) (k : A -> M E B) (s s1 : state E) (e : exn) :
  c s = (Raise e, s1) -> bind c k s = (Raise e, s1).
Proof. intros H. unfold bind. rewrite H. reflexivity. Qed.

Lemma lookup_some_nonempty {A} (k : string) (d : list (string * A)) (v : A) :
  lookup k d = Some v -> d <> [].
Proof. destruct d; [discriminate | discriminate]. Qed.

Lemma truthy_dict_with (k : string) (d : list (string * value)) (v : value) :
  lookup k d = Some v -> truthy (VDict d) = true.
Proof. destruct d; [discriminate | reflexivity]. Qed.

Lemma eqb_str_refl (s : string) : eqb (VStr s) (VStr s) = true.
Proof. simpl. apply String.eqb_refl. Qed.

(** ** Overview *)

Lemma count_item_some (c : counters) (h : HealthType) :
  count_item c (Some h) = bump h c.
Proof. destruct c, h; reflexivity. Qed.

Lemma count_item_none (c : counters) : count_item c None = c.
Proof. reflexivity. Qed.

Lemma count_fold (healths : list (option HealthType)) : forall c,
  let r := fold_left count_item healths c in
  _healthy r = _healthy c + occurrences HealthType_HEALTHY healths /\
  _unhealthy r = _unhealthy c + occurrences HealthType_FAILURE healths /\
  _degraded r = _degraded c + occurrences HealthType_DEGRADED healths /\
  _na r = _na c + occurrences HealthType_NA healths /\
  total r = total c + recognized healths.
Proof.
  unfold occurrences, recognized, total.
  induction healths as [| h hs IH]; intros c; cbn zeta.
  - simpl. repeat split; lia.
  - specialize (IH (count_item c h)). cbn zeta in IH.
    destruct IH as (H1 & H2 & H3 & H4 & H5).
    change (fold_left count_item (h :: hs) c)
      with (fold_left count_item hs (count_item c h)).
    rewrite H1, H2, H3, H4 in H5. rewrite H1, H2, H3, H4. clear H1 H2 H3 H4.
    destruct h as [[]|]; destruct c; simpl in *; repeat split; lia.
Qed.

(** C1 (as amended). In the bucketing pass of [overview_list], an item whose
    health is a member of [HealthType] increments exactly the one counter of
    that member (HEALTHY healthy, FAILURE unhealthy, DEGRADED degraded, NA na)
    and leaves the other three alone; an item whose health is [None]
    increments none; so after the pass each counter is the number of items
    with its health value, and the four add up to the number of items whose
    health is a member of [HealthType]. *)
Theorem overview_bucketing (healths : list (option HealthType)) :
  (forall c h, count_item c (Some h) = bump h c /\
               total (count_item c (Some h)) = S (total c)) /\
  (forall c, count_item c None = c) /\
  _healthy (count_health healths) = occurrences HealthType_HEALTHY healths /\
  _unhealthy (count_health healths) = occurrences HealthType_FAILURE healths /\
  _degraded (count_health healths) = occurrences HealthType_DEGRADED healths /\
  _na (count_health healths) = occurrences HealthType_NA healths /\
  total (count_health healths) = recognized healths /\
  total (count_health healths) <= List.length healths.
Proof.
  split; [| split].
  - intros c h. rewrite count_item_some. split; [reflexivity |].
    destruct c, h; unfold total; simpl; lia.
  - exact count_item_none.
  - destruct (count_fold healths (mkCounters 0 0 0 0)) as (H1 & H2 & H3 & H4 & H5).
    unfold count_health. cbn zeta in *.
    rewrite H1, H2, H3, H4, H5. unfold total. simpl.
    repeat split; try reflexivity.
    unfold recognized. apply filter_length_le.
Qed.

(** C1, as stated, fails: the one application of the backend [bookinfo] has
    no health document, so [get_app_health] gives it the health [None], and
    this item increments no counter at all, the NA counter included. *)
Lemma overview_bucketing_counterexample :
  overview_items Fixture.bookinfo APPS (VStr "bookinfo") 0 = (Ok [None], 2) /\
  count_health [None] = mkCounters 0 0 0 0 /\
  _na (count_health [None]) <> 1 /\
  total (count_health [None]) <> 1.
Proof. split; [reflexivity |]. split; [reflexivity |]. split; discriminate. Qed.

Lemma init_rejects_na (ot ns it h u d na : value) :
  Overview.init [("overview_type", ot); ("namespace", ns); ("items", it);
                 ("healthy", h); ("unhealthy", u); ("degraded", d); ("na", na)]
  = Raise TypeError.
Proof. reflexivity. Qed.

(** [overview_list] passes [na=_na] to [Overview], whose constructor has no
    such parameter: with a namespace to visit it raises, and returns no
    list. *)
Theorem overview_list_raises (E : Env) (n : value) (namespaces : list value)
  (overview_type : OverviewPageType) (s : state E) :
  exists e s', overview_list E (n :: namespaces) overview_type s = (Raise e, s').
Proof.
  unfold overview_list, scope. simpl.
  rewrite bind_ret. simpl forM.
  destruct (overview_items E overview_type n s) as [[hs | e] s1] eqn:Hitems.
  - exists TypeError, s1.
    unfold bind. rewrite Hitems. unfold lift. rewrite init_rejects_na. reflexivity.
  - exists e, s1. unfold bind. rewrite Hitems. reflexivity.
Qed.

(** On the backend [bookinfo], whose one application has no health
    document, the call raises [TypeError] at the constructor. *)
Lemma overview_list_raises_type_error :
  overview_list Fixture.bookinfo [] APPS 0 = (Raise TypeError, 3).
Proof. reflexivity. Qed.

(** C7. For an [Overview] [a] and any [b]: if [a.is_equal(b,
    advanced_check=True)] holds then [a.is_equal(b, advanced_check=False)]
    holds; the advanced check only adds the comparison of the healthy,
    unhealthy and degraded counts to the basic one. *)
Theorem advanced_equality_implies_basic (a : Overview.t) (b : Overview.object) :
  Overview.is_equal a b true = true -> Overview.is_equal a b false = true.
Proof.
  destruct b as [b | v]; simpl; [| discriminate].
  destruct (Overview.ne (Overview.overview_type a) (Overview.overview_type b));
    [discriminate |].
  destruct (Overview.ne (Overview.namespace a) (Overview.namespace b));
    [discriminate |].
  destruct (Overview.ne (Overview.items a) (Overview.items b)); [discriminate |].
  reflexivity.
Qed.

Lemma advanced_equality_implies_basic_witness :
  let a := Overview.mk (VStr "Apps") (VStr "bookinfo") (VInt 4) (VInt 1) (VInt 3) (VInt 0) in
  Overview.is_equal a (Overview.AnOverview a) false = true.
Proof.
  intro a. apply (advanced_equality_implies_basic a (Overview.AnOverview a)).
  reflexivity.
Defined.


(** ** Validation verdict *)

Lemma severities_read (checks : list value) :
  Forall (fun c => exists sev, has_severity c sev) checks ->
  exists sevs,
    forR (fun check => s <- getitem check "severity" ;; hashable s) checks = Ok sevs /\
    Forall2 (fun c sev => getitem c "severity" = Ok sev) checks sevs.
Proof.
  intros H. apply forR_Forall2.
  eapply Forall_impl; [| exact H].
  intros c [sev [Hget Hhash]]. exists sev. rewrite Hget. simpl. auto.
Qed.

Lemma verdict_falsy (d : value) : truthy d = false -> verdict d = Ok NA.
Proof. intros H. unfold verdict. rewrite H. reflexivity. Qed.

Lemma verdict_no_checks (kvs : list (string * value)) :
  lookup "checks" kvs = Some (VList []) -> verdict (VDict kvs) = Ok VALID.
Proof.
  intros H. unfold verdict. rewrite (truthy_dict_with _ _ H).
  unfold getitem. rewrite H. reflexivity.
Qed.

Lemma verdict_checks (kvs : list (string * value)) (c : value) (cs sevs : list value) :
  lookup "checks" kvs = Some (VList (c :: cs)) ->
  forR (fun check => s <- getitem check "severity" ;; hashable s) (c :: cs) = Ok sevs ->
  verdict (VDict kvs) =
  Ok (if existsb (eqb (VStr "error")) sevs then NOT_VALID else WARNING).
Proof.
  intros H Hs. unfold verdict. rewrite (truthy_dict_with _ _ H).
  unfold getitem at 1 2. rewrite H.
  cbn [bindR len List.length Nat.ltb Nat.leb iter].
  rewrite Hs. cbn [bindR]. destruct (existsb _ sevs); reflexivity.
Qed.

Lemma no_error_among (checks sevs : list value) :
  Forall2 (fun c sev => getitem c "severity" = Ok sev) checks sevs ->
  Forall (fun c => exists sev, has_severity c sev /\ eqb (VStr "error") sev = false) checks ->
  existsb (eqb (VStr "error")) sevs = false.
Proof.
  induction 1 as [| c sev cs sevs Hc _ IH]; intros HF; [reflexivity |].
  inversion HF as [| ? ? [sev' [[Hget _] Hne]] HF']; subst.
  cbn [existsb]. rewrite Hc in Hget. injection Hget as ->. rewrite Hne. auto.
Qed.

Lemma error_among (checks sevs : list value) :
  Forall2 (fun c sev => getitem c "severity" = Ok sev) checks sevs ->
  Exists (fun c => getitem c "severity" = Ok (VStr "error")) checks ->
  existsb (eqb (VStr "error")) sevs = true.
Proof.
  induction 1 as [| c sev cs sevs Hc _ IH]; intros HE; inversion HE; subst;
    cbn [existsb].
  - rewrite Hc in H0. injection H0 as ->. rewrite eqb_str_refl. reflexivity.
  - rewrite IH by assumption. apply orb_true_r.
Qed.

Lemma get_istio_config_validation_eq (E : Env) (namespace object_type object_name : value)
  (s s' : state E) (d : value) :
  get_validation E "istioConfigDetails"
    (validation_path namespace object_type object_name) s = (Ok d, s') ->
  get_istio_config_validation E namespace object_type object_name s = (verdict d, s').
Proof.
  intros H. unfold get_istio_config_validation.
  unfold validation_path in H. unfold bind. rewrite H. reflexivity.
Qed.

(** C2 (as amended). [get_istio_config_validation] returns NA when the
    validation document is absent or empty (falsy), VALID when the document
    is there and its checks array is empty, and WARNING when the checks array
    is non-empty and no entry of it has severity "error". *)
Theorem validation_verdict (E : Env) (namespace object_type object_name : value)
  (s s' : state E) (d : value) :
  get_validation E "istioConfigDetails"
    (validation_path namespace object_type object_name) s = (Ok d, s') ->
  (truthy d = false ->
   get_istio_config_validation E namespace object_type object_name s = (Ok NA, s')) /\
  (forall kvs, d = VDict kvs -> lookup "checks" kvs = Some (VList []) ->
   get_istio_config_validation E namespace object_type object_name s = (Ok VALID, s')) /\
  (forall kvs c cs, d = VDict kvs -> lookup "checks" kvs = Some (VList (c :: cs)) ->
   Forall (fun c => exists sev, has_severity c sev /\ eqb (VStr "error") sev = false)
     (c :: cs) ->
   get_istio_config_validation E namespace object_type object_name s = (Ok WARNING, s')).
Proof.
  intros H. rewrite (get_istio_config_validation_eq _ _ _ _ _ H).
  split; [| split].
  - intros Hd. rewrite (verdict_falsy _ Hd). reflexivity.
  - intros kvs -> Hk. rewrite (verdict_no_checks _ Hk). reflexivity.
  - intros kvs c cs -> Hk HF.
    assert (HF' : Forall (fun c => exists sev, has_severity c sev) (c :: cs)).
    { eapply Forall_impl; [| exact HF]. intros x [sev [Hx _]]. exists sev. exact Hx. }
    destruct (severities_read HF') as [sevs [Hs H2]].
    rewrite (verdict_checks _ Hk Hs), (no_error_among H2 HF). reflexivity.
Qed.

Lemma validation_verdict_witness :
  get_istio_config_validation
    (Fixture.validating (Fixture.checked [Fixture.check "warning" "KIA1102"]))
    (VStr "bookinfo") (VStr "virtualservices") (VStr "reviews") 0
  = (Ok WARNING, 1) /\
  get_istio_config_validation (Fixture.validating VNone)
    (VStr "bookinfo") (VStr "virtualservices") (VStr "reviews") 0
  = (Ok NA, 1).
Proof.
  split.
  - eapply (proj2 (proj2 (@validation_verdict
              (Fixture.validating (Fixture.checked [Fixture.check "warning" "KIA1102"]))
              (VStr "bookinfo") (VStr "virtualservices") (VStr "reviews") 0 1 _
              eq_refl))).
    + reflexivity.
    + reflexivity.
    + repeat constructor. exists (VStr "warning"). repeat split.
  - apply (proj1 (@validation_verdict (Fixture.validating VNone)
              (VStr "bookinfo") (VStr "virtualservices") (VStr "reviews") 0 1 _
              eq_refl)).
    reflexivity.
Defined.

(** C2, as stated, fails on an empty checks array: the document is there, its
    checks array is empty, and the verdict is VALID, not NA. *)
Lemma validation_verdict_counterexample :
  get_istio_config_validation (Fixture.validating (Fixture.checked []))
    (VStr "bookinfo") (VStr "virtualservices") (VStr "reviews") 0
  = (Ok VALID, 1) /\
  get_istio_config_validation (Fixture.validating (Fixture.checked []))
    (VStr "bookinfo") (VStr "virtualservices") (VStr "reviews") 0
  <> (Ok NA, 1).
Proof. split; [reflexivity | discriminate]. Qed.

(** C3. When the checks array holds at least one entry with severity "error"
    (and every entry has a severity), [get_istio_config_validation] returns
    NOT_VALID, whatever the other entries are. *)
Theorem error_beats_warning (E : Env) (namespace object_type object_name : value)
  (s s' : state E) (kvs : list (string * value)) (checks : list value) :
  get_validation E "istioConfigDetails"
    (validation_path namespace object_type object_name) s = (Ok (VDict kvs), s') ->
  lookup "checks" kvs = Some (VList checks) ->
  Forall (fun c => exists sev, has_severity c sev) checks ->
  Exists (fun c => getitem c "severity" = Ok (VStr "error")) checks ->
  get_istio_config_validation E namespace object_type object_name s = (Ok NOT_VALID, s').
Proof.
  intros H Hk HF HE. rewrite (get_istio_config_validation_eq _ _ _ _ _ H).
  destruct (severities_read HF) as [sevs [Hs H2]].
  destruct checks as [| c cs]; [inversion HE |].
  rewrite (verdict_checks _ Hk Hs), (error_among H2 HE). reflexivity.
Qed.

Lemma error_beats_warning_witness :
  get_istio_config_validation
    (Fixture.validating
       (Fixture.checked [Fixture.check "warning" "KIA1102"; Fixture.check "error" "KIA1101";
                         Fixture.check "warning" "KIA1104"]))
    (VStr "bookinfo") (VStr "virtualservices") (VStr "reviews") 0
  = (Ok NOT_VALID, 1).
Proof.
  eapply (@error_beats_warning
            (Fixture.validating
               (Fixture.checked [Fixture.check "warning" "KIA1102";
                                 Fixture.check "error" "KIA1101";
                                 Fixture.check "warning" "KIA1104"]))
            (VStr "bookinfo") (VStr "virtualservices") (VStr "reviews") 0 1 _ _ eq_refl).
  - reflexivity.
  - repeat constructor; eexists; split; reflexivity.
  - right. left. reflexivity.
Defined.

(** ** Pod grouping *)

Section Groupby.

Variable A : Type.
Variable key : A -> string.

Lemma groupby_concat (l : list A) : List.concat (map snd (groupby key l)) = l.
Proof.
  induction l as [| x xs IH]; [reflexivity |].
  simpl. destruct (groupby key xs) as [| [k g] gs].
  - simpl in IH. subst xs. reflexivity.
  - destruct (String.eqb (key x) k); simpl in *; rewrite IH; reflexivity.
Qed.

Lemma groupby_runs (l : list A) :
  Forall (fun g => snd g <> [] /\ Forall (fun x => key x = fst g) (snd g))
    (groupby key l).
Proof.
  induction l as [| x xs IH]; [constructor |].
  simpl. destruct (groupby key xs) as [| [k g] gs].
  - constructor; [| constructor]. simpl. split; [discriminate | auto].
  - inversion IH as [| ? ? [Hne Hall] Hrest]; subst. simpl in *.
    destruct (String.eqb (key x) k) eqn:Hk.
    + apply String.eqb_eq in Hk. constructor; [| assumption].
      simpl. split; [discriminate | constructor; assumption].
    + constructor; [| constructor; [split |]; assumption].
      simpl. split; [discriminate | auto].
Qed.

Lemma groupby_maximal (l : list A) : no_adjacent_equal (map fst (groupby key l)).
Proof.
  induction l as [| x xs IH]; [exact I |].
  simpl. destruct (groupby key xs) as [| [k g] gs].
  - exact I.
  - destruct (String.eqb (key x) k) eqn:Hk.
    + exact IH.
    + apply String.eqb_neq in Hk. simpl. split; assumption.
Qed.

Lemma groupby_length (l : list A) : List.length (groupby key l) <= List.length l.
Proof.
  induction l as [| x xs IH]; [apply Nat.le_refl |].
  simpl. destruct (groupby key xs) as [| [k g] gs].
  - simpl. lia.
  - destruct (String.eqb (key x) k); simpl in *; lia.
Qed.

End Groupby.

Lemma last_pod_some (p : WorkloadPod.t) (l : list WorkloadPod.t) :
  exists q, last_pod (p :: l) = Some q.
Proof.
  unfold last_pod. destruct (rev (p :: l)) as [| q r] eqn:H.
  - apply (f_equal (@List.length _)) in H. rewrite length_rev in H. discriminate.
  - exists q. reflexivity.
Qed.

(** What the loop body computes for a group of two pods or more. *)
Lemma group_row_many (st : locals) (p first second : WorkloadPod.t)
  (rest : list WorkloadPod.t) (k : string) :
  _pod st = Some p ->
  let g := first :: second :: rest in
  let row :=
    WorkloadPod.mk
      (drop_last 5 (WorkloadPod.name p) ++ "... (" ++ str_of_nat (List.length g) ++
       " replicas)")
      (WorkloadPod.created_at p ++ " and " ++ WorkloadPod.created_at (last g first))
      k (WorkloadPod.labels first) (WorkloadPod.istio_init_containers first)
      (WorkloadPod.istio_containers first) (WorkloadPod.status first)
      (WorkloadPod.phase first) in
  group_row st (k, g) = Ok (mkLocals (Some row) (_pods st ++ [row])).
Proof. intros H. unfold group_row. rewrite H. reflexivity. Qed.

Lemma group_row_labelled (st : locals) (p : WorkloadPod.t)
  (g : string * list WorkloadPod.t) :
  _pod st = Some p -> snd g <> [] ->
  exists row, group_row st g = Ok (mkLocals (Some row) (_pods st ++ [row])) /\
              labelled row g.
Proof.
  intros Hp Hne. destruct g as [k [| first [| second rest]]]; [contradiction | |].
  - eexists. split; [reflexivity |]. split; reflexivity.
  - eexists. split; [apply (@group_row_many st p first second rest k Hp) |].
    split; [reflexivity |]. simpl snd. eexists. reflexivity.
Qed.

Lemma group_rows_labelled (groups : list (string * list WorkloadPod.t)) :
  Forall (fun g => snd g <> []) groups ->
  forall st p, _pod st = Some p ->
  exists st' rows,
    foldR group_row st groups = Ok st' /\
    _pods st' = (_pods st ++ rows)%list /\
    Forall2 labelled rows groups.
Proof.
  induction 1 as [| g gs Hg _ IH]; intros st p Hp.
  - exists st, []. rewrite app_nil_r. repeat split. constructor.
  - destruct (group_row_labelled st g Hp Hg) as [row [Hrow Hl]].
    destruct (IH (mkLocals (Some row) (_pods st ++ [row])) row eq_refl)
      as [st' [rows [Hfold [Hpods HF]]]].
    exists st', (row :: rows). simpl. rewrite Hrow. simpl. rewrite Hfold.
    split; [reflexivity |]. split.
    + rewrite Hpods. simpl. rewrite <- app_assoc. reflexivity.
    + constructor; assumption.
Qed.

Lemma groupby_three_two (a1 a2 a3 b1 b2 : WorkloadPod.t) :
  WorkloadPod.created_by a1 = WorkloadPod.created_by a2 ->
  WorkloadPod.created_by a2 = WorkloadPod.created_by a3 ->
  WorkloadPod.created_by b1 = WorkloadPod.created_by b2 ->
  WorkloadPod.created_by a3 <> WorkloadPod.created_by b1 ->
  groupby WorkloadPod.created_by [a1; a2; a3; b1; b2] =
  [(WorkloadPod.created_by a1, [a1; a2; a3]); (WorkloadPod.created_by b1, [b1; b2])].
Proof.
  intros H12 H23 Hb Hab. simpl.
  rewrite Hb, String.eqb_refl.
  destruct (String.eqb_spec (WorkloadPod.created_by a3) (WorkloadPod.created_by b2)) as [e | _].
  { exfalso. apply Hab. rewrite Hb. exact e. }
  rewrite H23, String.eqb_refl. rewrite H12, H23, String.eqb_refl. reflexivity.
Qed.

(** C5. The pod grouping of [workload_details] cuts the pods into the maximal
    runs of adjacent pods with equal [created_by] (the runs put end to end are
    the input, so no pod is dropped; every run is non-empty and has one owner;
    neighbouring runs have different owners) and returns exactly one row per
    run, in the order of the runs, each carrying the owner of its run and a
    name that ends in the size of the run; hence no more rows than pods. A
    single pod gives the one row ["<name> (1 replica)"]; pods owned
    [A, A, A, B, B] give two runs, of three and of two. *)
Theorem pod_grouping (_all_pods : list WorkloadPod.t) :
  let groups := groupby WorkloadPod.created_by _all_pods in
  List.concat (map snd groups) = _all_pods /\
  Forall run_of_owner groups /\
  no_adjacent_equal (map fst groups) /\
  (exists rows,
     group_pods (last_pod _all_pods) _all_pods = Ok rows /\
     Forall2 labelled rows groups /\
     List.length rows = List.length groups /\
     List.length rows <= List.length _all_pods) /\
  (forall p,
     group_pods (last_pod [p]) [p] =
     Ok [WorkloadPod.mk (WorkloadPod.name p ++ " (1 replica)") (WorkloadPod.created_at p)
           (WorkloadPod.created_by p) (WorkloadPod.labels p)
           (WorkloadPod.istio_init_containers p) (WorkloadPod.istio_containers p)
           (WorkloadPod.status p) (WorkloadPod.phase p)]) /\
  (forall a1 a2 a3 b1 b2,
     WorkloadPod.created_by a1 = WorkloadPod.created_by a2 ->
     WorkloadPod.created_by a2 = WorkloadPod.created_by a3 ->
     WorkloadPod.created_by b1 = WorkloadPod.created_by b2 ->
     WorkloadPod.created_by a3 <> WorkloadPod.created_by b1 ->
     exists row3 row2,
       group_pods (last_pod [a1; a2; a3; b1; b2]) [a1; a2; a3; b1; b2] = Ok [row3; row2] /\
       labelled row3 (WorkloadPod.created_by a1, [a1; a2; a3]) /\
       labelled row2 (WorkloadPod.created_by b1, [b1; b2])).
Proof.
  cbn zeta.
  assert (Hruns := groupby_runs WorkloadPod.created_by _all_pods).
  assert (Hrows : forall l : list WorkloadPod.t,
             exists rows,
               group_pods (last_pod l) l = Ok rows /\
               Forall2 labelled rows (groupby WorkloadPod.created_by l)).
  { intros l. unfold group_pods. destruct l as [| p l'].
    - exists []. split; [reflexivity | constructor].
    - destruct (last_pod_some p l') as [q Hq]. rewrite Hq.
      assert (Hne : Forall (fun g : string * list WorkloadPod.t => snd g <> [])
                      (groupby WorkloadPod.created_by (p :: l'))).
      { eapply Forall_impl; [| apply groupby_runs]. intros g [H _]. exact H. }
      destruct (@group_rows_labelled _ Hne (mkLocals (Some q) []) q eq_refl)
        as [st' [rows [Hfold [Hpods HF]]]].
      exists rows. rewrite Hfold. simpl. rewrite Hpods. split; [reflexivity | exact HF]. }
  split; [apply groupby_concat |].
  split; [exact Hruns |].
  split; [apply groupby_maximal |].
  split; [| split].
  - destruct (Hrows _all_pods) as [rows [Hok HF]].
    exists rows. split; [exact Hok |]. split; [exact HF |].
    assert (Hlen := Forall2_length HF).
    split; [exact Hlen |]. rewrite Hlen. apply groupby_length.
  - intros p. reflexivity.
  - intros a1 a2 a3 b1 b2 H12 H23 Hb Hab.
    destruct (Hrows [a1; a2; a3; b1; b2]) as [rows [Hok HF]].
    rewrite (@groupby_three_two a1 a2 a3 b1 b2 H12 H23 Hb Hab) in HF.
    inversion HF as [| row3 ? rows' ? H3 HF']; subst.
    inversion HF' as [| row2 ? rows'' ? H2 HF'']; subst.
    inversion HF''; subst.
    exists row3, row2. repeat split; try assumption; apply H3 || apply H2.
Qed.

Lemma pod_grouping_witness :
  exists row3 row2,
    group_pods (last_pod Fixture.five_pods) Fixture.five_pods = Ok [row3; row2] /\
    labelled row3 ("A", firstn 3 Fixture.five_pods) /\
    labelled row2 ("B", skipn 3 Fixture.five_pods).
Proof.
  apply (proj2 (proj2 (proj2 (proj2 (proj2 (pod_grouping Fixture.five_pods)))))).
  - reflexivity.
  - reflexivity.
  - reflexivity.
  - discriminate.
Defined.

(** C4. On two replicas of one replica set, created at [t1] and [t2], the row
    of the group is built from the stale local [_pod] (the last pod that the
    loop before built), not from the first pod of the group: its [created_at]
    is ["t2 and t2"], where the first member's [t1] should stand. On pods
    owned [A, A, A, B, B] the row of [A] is named after the last [B] pod, and
    the row of [B] after the row of [A]. *)
Theorem replica_row_reads_stale_pod :
  group_pods (last_pod Fixture.two_replicas) Fixture.two_replicas =
  Ok [WorkloadPod.mk "details-v1-... (2 replicas)" "t2 and t2" "details-v1 (ReplicaSet)"
        (VDict []) "" "" VALID (VStr "Running")] /\
  match group_pods (last_pod Fixture.five_pods) Fixture.five_pods with
  | Ok rows => map (fun r => (WorkloadPod.name r, WorkloadPod.created_at r)) rows
  | Raise _ => []
  end =
  [("beta-... (3 replicas)", "t5 and t3");
   ("beta-... (3 repl... (2 replicas)", "t5 and t3 and t5")].
Proof. split; reflexivity. Qed.

(** ** Filters of the Istio config list *)

(** [IstioConfigPageFilter] has no member [NAMESPACE]. *)
Lemma no_namespace_filter : IstioConfigPageFilter_getattr "NAMESPACE" = Raise AttributeError.
Proof. reflexivity. Qed.

(** C6. With any filter at all, [istio_config_list] raises [AttributeError]
    at the first filter, before any request: the loop over the filters looks
    up [FILTER_TYPE.NAMESPACE], and [IstioConfigPageFilter] has no such
    member. In particular, with the filters Istio Type "Gateway" and Istio
    Name "foo" nothing survives: no list is returned. *)
Theorem istio_config_list_with_filters_raises (E : Env) (f : value) (filters : list value)
  (s : state E) :
  istio_config_list E (f :: filters) s = (Raise AttributeError, s) /\
  istio_config_list Fixture.bookinfo Fixture.gateway_foo 0 = (Raise AttributeError, 0).
Proof. split; reflexivity. Qed.

(** Lines 336-351 taken alone, on the two items of the claim: of a gateway
    and a virtual service both named [foobar], the name [foo] and the type
    [Gateway] keep the gateway only. *)
Lemma apply_filters_gateway_foo :
  let gateway := Config.IstioConfig (VStr "foobar") (VStr "bookinfo") "Gateway" VALID in
  let virtual_service :=
    Config.IstioConfig (VStr "foobar") (VStr "bookinfo") "VirtualService" VALID in
  apply_filters Fixture.bookinfo [VStr "foo"] [VStr "Gateway"] [gateway; virtual_service]
  = Ok (PySet [gateway]).
Proof. reflexivity. Qed.

(** ** Details of what is not there *)

(** C8. When the detail document that the backend returns is absent or empty
    (falsy), each of [service_details], [workload_details],
    [application_details] and [istio_config_details] returns [None]; it
    raises nothing and makes no further request. *)
Theorem details_not_found (E : Env) (namespace name object_type : value)
  (s s' : state E) (d : value) :
  truthy d = false ->
  (get_response E "serviceDetails" [("namespace", namespace); ("service", name)] s
   = (Ok d, s') ->
   service_details E namespace name s = (Ok None, s')) /\
  (get_response E "workloadDetails" [("namespace", namespace); ("workload", name)] s
   = (Ok d, s') ->
   workload_details E namespace name s = (Ok None, s')) /\
  (get_response E "appDetails" [("namespace", namespace); ("app", name)] s
   = (Ok d, s') ->
   application_details E namespace name s = (Ok None, s')) /\
  (get_response E "istioConfigDetails"
     [("namespace", namespace); ("object_type", object_type); ("object", name)] s
   = (Ok d, s') ->
   istio_config_details E namespace object_type name s = (Ok None, s')).
Proof.
  intros Hd. repeat split; intros H.
  - unfold service_details, bind. rewrite H, Hd. reflexivity.
  - unfold workload_details, bind. rewrite H, Hd. reflexivity.
  - unfold application_details, bind. rewrite H, Hd. reflexivity.
  - unfold istio_config_details, bind. rewrite H, Hd. reflexivity.
Qed.

Lemma details_not_found_witness :
  service_details Fixture.nothing (VStr "bookinfo") (VStr "reviews") 0 = (Ok None, 1) /\
  workload_details Fixture.nothing (VStr "bookinfo") (VStr "reviews") 0 = (Ok None, 1) /\
  application_details Fixture.nothing (VStr "bookinfo") (VStr "reviews") 0 = (Ok None, 1) /\
  istio_config_details Fixture.nothing (VStr "bookinfo") (VStr "gateways") (VStr "reviews") 0
  = (Ok None, 1).
Proof.
  destruct (@details_not_found Fixture.nothing (VStr "bookinfo") (VStr "reviews")
              (VStr "gateways") 0 1 (VDict []) eq_refl) as (H1 & H2 & H3 & H4).
  split; [apply H1; reflexivity |].
  split; [apply H2; reflexivity |].
  split; [apply H3; reflexivity | apply H4; reflexivity].
Defined.

(** ** [delete_istio_config] *)

(** C10. When the underlying client raises [NotFoundError] (the resource is
    not there), [delete_istio_config] returns normally; and whatever the
    underlying client does, [delete_istio_config] never raises
    [NotFoundError]. *)
Theorem delete_istio_config_ignores_not_found (cluster : Type)
  (resource_delete : string -> string -> string -> string -> cluster ->
                     result value * cluster)
  (name namespace kind api_version : string) (c : cluster) :
  (forall c', resource_delete kind api_version name namespace c = (Raise NotFoundError, c') ->
              delete_istio_config resource_delete name namespace kind api_version c
              = (Ok tt, c')) /\
  fst (delete_istio_config resource_delete name namespace kind api_version c)
  <> Raise NotFoundError.
Proof.
  unfold delete_istio_config. split.
  - intros c' H. rewrite H. reflexivity.
  - destruct (resource_delete kind api_version name namespace c) as [[v | []] c'];
      simpl; discriminate.
Qed.

(** Deleting twice in a row: the second call finds nothing and returns. *)
Lemma delete_istio_config_ignores_not_found_witness :
  let gw := ("Gateway", "networking.istio.io/v1alpha3", "bookinfo", "bookinfo-gateway") in
  delete_istio_config Fixture.cluster_delete "bookinfo-gateway" "bookinfo" "Gateway"
    "networking.istio.io/v1alpha3" [gw] = (Ok tt, []) /\
  delete_istio_config Fixture.cluster_delete "bookinfo-gateway" "bookinfo" "Gateway"
    "networking.istio.io/v1alpha3" [] = (Ok tt, []).
Proof.
  intro gw. split; [reflexivity |].
  apply (proj1 (delete_istio_config_ignores_not_found Fixture.cluster_delete
                  "bookinfo-gateway" "bookinfo" "Gateway"
                  "networking.istio.io/v1alpha3" [])).
  reflexivity.
Defined.

(** ** Adapters and templates *)

Lemma rules_with_subkind_rows (E : Env) (_data _namespace : value) (category : string)
  (object_type : IstioConfigObjectType) (subkind : string) (policies : list value) :
  getitem _data category = Ok (VList policies) ->
  Forall (fun p => exists name sub, entry subkind p name sub) policies ->
  exists rows,
    rules_with_subkind E _data _namespace category object_type subkind = Ok rows /\
    Forall2 (fun p row =>
               exists name sub, entry subkind p name sub /\
                 row = Config.Rule name _namespace
                         (IstioConfigObjectType_text object_type ++ ": " ++ sub))
      policies rows.
Proof.
  intros Hget HF. unfold rules_with_subkind, nonempty. rewrite Hget.
  destruct policies as [| p ps].
  - exists []. split; [reflexivity | constructor].
  - cbn [bindR len List.length Nat.ltb Nat.leb iter].
    apply forR_Forall2. eapply Forall_impl; [| exact HF].
    intros q [name [sub [Hn Hs]]]. eexists. rewrite Hn, Hs. split; [reflexivity |].
    exists name, sub. split; [split; assumption | reflexivity].
Qed.

(** The items of a namespace hold the rows of its adapters and of its
    templates. *)
Lemma namespace_configs_rules (E : Env) (_namespace : value) (s s' : state E)
  (items : list Config.t) :
  namespace_configs E _namespace s = (Ok items, s') ->
  exists _data s1 adapters templates,
    get_response E "istioConfigList" [("namespace", _namespace)] s = (Ok _data, s1) /\
    rules_with_subkind E _data _namespace "adapters" ADAPTER "adapter" = Ok adapters /\
    rules_with_subkind E _data _namespace "templates" TEMPLATE "template" = Ok templates /\
    incl adapters items /\ incl templates items.
Proof.
  unfold namespace_configs, bind, lift, ret. intros H.
  destruct (get_response E "istioConfigList" [("namespace", _namespace)] s)
    as [[_data | ?] s1] eqn:Hdata; [| discriminate].
  destruct (configs_with_items E _data _namespace "destinationRules" _ _ s1)
    as [[a | ?] s2]; [| discriminate].
  destruct (rules _data _namespace) as [b | ?]; [| discriminate].
  destruct (rules_with_subkind E _data _namespace "adapters" ADAPTER "adapter")
    as [c | ?] eqn:Hc; [| discriminate].
  destruct (rules_with_subkind E _data _namespace "templates" TEMPLATE "template")
    as [d | ?] eqn:Hd; [| discriminate].
  destruct (configs_with_items E _data _namespace "virtualServices" _ _ s2)
    as [[e | ?] s3]; [| discriminate].
  destruct (configs E _data _namespace "quotaSpecs" _ _ s3) as [[f | ?] s4];
    [| discriminate].
  destruct (configs E _data _namespace "quotaSpecBindings" _ _ s4) as [[g | ?] s5];
    [| discriminate].
  destruct (configs E _data _namespace "gateways" _ _ s5) as [[h | ?] s6];
    [| discriminate].
  destruct (configs E _data _namespace "serviceEntries" _ _ s6) as [[i | ?] s7];
    [| discriminate].
  injection H as <- <-.
  exists _data, s1, c, d.
  split; [reflexivity |]. split; [exact Hc |]. split; [exact Hd |]. split.
  - intros x Hx. apply in_or_app. right. apply in_or_app. right.
    apply in_or_app. left. exact Hx.
  - intros x Hx. apply in_or_app. right. apply in_or_app. right.
    apply in_or_app. right. apply in_or_app. left. exact Hx.
Qed.

(** Without filters, [istio_config_list] returns the items of the namespaces
    in scope, one namespace after the other. *)
Lemma istio_config_list_no_filter (E : Env) (s : state E) :
  istio_config_list E [] s =
  bind (scope E [])
    (fun namespace_list =>
       bind (forM (namespace_configs E) namespace_list)
         (fun found => ret E (PyList (List.concat found)))) s.
Proof. reflexivity. Qed.

(** C9. For every adapter entry (category "adapters", sub-kind under
    "adapter") and every template entry (category "templates", sub-kind under
    "template") of a namespace's Istio config, the normalizer of
    [istio_config_list] puts a [Rule] among the items of that namespace whose
    [object_type] is exactly ["Adapter: <subkind>"], respectively
    ["Template: <subkind>"]. *)
Theorem subkind_in_object_type (E : Env) (_namespace : value) (s s' : state E)
  (items : list Config.t) (_data : value) (s1 : state E) :
  namespace_configs E _namespace s = (Ok items, s') ->
  get_response E "istioConfigList" [("namespace", _namespace)] s = (Ok _data, s1) ->
  (forall policies p name sub,
     getitem _data "adapters" = Ok (VList policies) ->
     Forall (fun p => exists name sub, entry "adapter" p name sub) policies ->
     In p policies -> entry "adapter" p name sub ->
     In (Config.Rule name _namespace ("Adapter: " ++ sub)) items) /\
  (forall policies p name sub,
     getitem _data "templates" = Ok (VList policies) ->
     Forall (fun p => exists name sub, entry "template" p name sub) policies ->
     In p policies -> entry "template" p name sub ->
     In (Config.Rule name _namespace ("Template: " ++ sub)) items).
Proof.
  intros H Hdata.
  destruct (@namespace_configs_rules E _namespace s s' items H)
    as (_data' & s1' & adapters & templates & Hd & Ha & Ht & Hia & Hit).
  rewrite Hdata in Hd. injection Hd as <- <-.
  assert (Hin : forall category object_type subkind rows policies p name sub,
             rules_with_subkind E _data _namespace category object_type subkind = Ok rows ->
             getitem _data category = Ok (VList policies) ->
             Forall (fun p => exists name sub, entry subkind p name sub) policies ->
             In p policies -> entry subkind p name sub ->
             In (Config.Rule name _namespace
                   (IstioConfigObjectType_text object_type ++ ": " ++ sub)) rows).
  { intros category object_type subkind rows policies p name sub Hr Hg HF Hp [Hn Hs].
    destruct (@rules_with_subkind_rows E _data _namespace category object_type subkind
                policies Hg HF) as [rows' [Hr' H2]].
    rewrite Hr in Hr'. injection Hr' as <-.
    clear Hr HF Hg. induction H2 as [| q row qs rows' Hq _ IH]; [contradiction |].
    destruct Hp as [-> | Hp].
    - left. destruct Hq as [name' [sub' [[Hn' Hs'] ->]]].
      rewrite Hn in Hn'. rewrite Hs in Hs'.
      injection Hn' as <-. injection Hs' as <-. reflexivity.
    - right. apply IH. exact Hp. }
  split; intros policies p name sub Hg HF Hp He.
  - apply Hia. exact (Hin "adapters" ADAPTER "adapter" _ _ _ _ _ Ha Hg HF Hp He).
  - apply Hit. exact (Hin "templates" TEMPLATE "template" _ _ _ _ _ Ht Hg HF Hp He).
Qed.

(** The adapter [handler] of kind [prometheus] in namespace [bookinfo]. *)
Lemma subkind_in_object_type_witness :
  In (Config.Rule (VStr "handler") (VStr "bookinfo") "Adapter: prometheus")
    (elements match fst (istio_config_list Fixture.bookinfo [] 0) with
              | Ok c => c
              | Raise _ => PyList []
              end).
Proof.
  change (In (Config.Rule (VStr "handler") (VStr "bookinfo") ("Adapter: " ++ "prometheus"))
            [Config.Rule (VStr "handler") (VStr "bookinfo") "Adapter: prometheus";
             Config.IstioConfig (VStr "foobar") (VStr "bookinfo") "VirtualService" VALID;
             Config.IstioConfig (VStr "foobar") (VStr "bookinfo") "Gateway" VALID]).
  eapply (proj1 (@subkind_in_object_type Fixture.bookinfo (VStr "bookinfo") 0 3 _
                   Fixture.istio_config 1 eq_refl eq_refl)).
  - reflexivity.
  - repeat constructor. exists (VStr "handler"), "prometheus". split; reflexivity.
  - left. reflexivity.
  - split; reflexivity.
Defined.

(** ** The filter engine, lines 336-351 *)

Lemma filterR_total {A} (p : A -> result bool) (q : A -> bool) (l : list A) :
  (forall x, In x l -> p x = Ok (q x)) -> filterR p l = Ok (filter q l).
Proof.
  induction l as [| x xs IH]; intros H; [reflexivity |].
  simpl. rewrite (H x (or_introl eq_refl)). simpl.
  rewrite IH by (intros y Hy; apply H; right; exact Hy). simpl.
  destruct (q x); reflexivity.
Qed.

Lemma forR_total {A B} (f : A -> result B) (g : A -> B) (l : list A) :
  (forall x, In x l -> f x = Ok (g x)) -> forR f l = Ok (map g l).
Proof.
  induction l as [| x xs IH]; intros H; [reflexivity |].
  simpl. rewrite (H x (or_introl eq_refl)). simpl.
  rewrite IH by (intros y Hy; apply H; right; exact Hy). reflexivity.
Qed.

Lemma filter_by_name_total {A} (name_of : A -> value) (q : string -> A -> bool)
  (ns : list string) (items : list A) :
  (forall n i, In n ns -> In i items -> contains (VStr n) (name_of i) = Ok (q n i)) ->
  filter_by_name name_of (map VStr ns) items =
  Ok (List.concat (map (fun n => filter (q n) items) ns)).
Proof.
  intros H. unfold filter_by_name.
  rewrite (@forR_total _ _ _ (fun _name => filter (match _name with
                                                     | VStr n => q n
                                                     | _ => fun _ => false
                                                     end) items)).
  - simpl. rewrite map_map. reflexivity.
  - intros v Hv. apply in_map_iff in Hv. destruct Hv as [n [<- Hn]].
    apply filterR_total. intros i Hi. apply H; assumption.
Qed.

Lemma in_matches {A} (q : string -> A -> bool) (ns : list string) (items : list A) (i : A) :
  In i (List.concat (map (fun n => filter (q n) items) ns)) <->
  In i items /\ exists n, In n ns /\ q n i = true.
Proof.
  rewrite in_concat. split.
  - intros [l [Hl Hi]]. apply in_map_iff in Hl. destruct Hl as [n [<- Hn]].
    apply filter_In in Hi. destruct Hi as [Hi Hq]. split; [exact Hi |].
    exists n. split; assumption.
  - intros [Hi [n [Hn Hq]]]. exists (filter (q n) items). split.
    + apply in_map_iff. exists n. split; [reflexivity | exact Hn].
    + apply filter_In. split; assumption.
Qed.

Lemma same_eq (a b : Config.t) : Config.same a b = true <-> a = b.
Proof.
  unfold Config.same. destruct (Config.eq_dec a b) as [e | n]; split; intros H;
    try assumption; try reflexivity; try discriminate. contradiction.
Qed.

Lemma distinct_In {A} (same : A -> A -> bool) (l : list A) (x : A) :
  (forall a b, same a b = true <-> a = b) ->
  In x (distinct same l) <-> In x l.
Proof.
  intros Hsame. induction l as [| y ys IH]; [reflexivity |].
  simpl. rewrite filter_In, IH. split.
  - intros [-> | [H _]]; [left; reflexivity | right; exact H].
  - intros [-> | H]; [left; reflexivity |].
    destruct (same y x) eqn:Hyx.
    + left. apply Hsame. exact Hyx.
    + right. split; [exact H | reflexivity].
Qed.

Lemma intersection_In {A} (same : A -> A -> bool) (a b : list A) (x : A) :
  (forall a b, same a b = true <-> a = b) ->
  In x (intersection same a b) <-> In x a /\ In x b.
Proof.
  intros Hsame. unfold intersection. rewrite filter_In, existsb_exists. split.
  - intros [Ha [y [Hy Hxy]]]. apply Hsame in Hxy. subst y. split; assumption.
  - intros [Ha Hb]. split; [exact Ha |]. exists x. split; [exact Hb |].
    apply Hsame. reflexivity.
Qed.

(** Lines 336-351, when they are reached with string filters over items with
    string names, and the equality of configs is the equality of their
    attributes: the items returned are those that match some name filter (if
    there is any) and some type filter (if there is any), by substring. *)
Theorem apply_filters_or_within_and_across (E : Env) (ns ts : list string)
  (items : list Config.t) :
  (forall a b, same_config E a b = Config.same a b) ->
  Forall named_by_string items ->
  exists result,
    apply_filters E (map VStr ns) (map VStr ts) items = Ok result /\
    forall i, In i (elements result) <->
              In i items /\
              (ns = [] \/ exists n, In n ns /\ matches_name n i) /\
              (ts = [] \/ exists t, In t ts /\ matches_type t i).
Proof.
  intros Hsame Hnamed.
  assert (Hs : forall a b, same_config E a b = true <-> a = b).
  { intros a b. rewrite Hsame. apply same_eq. }
  set (qn := fun (n : string) (i : Config.t) =>
               match Config.name i with
               | VStr s => is_substring n s
               | _ => false
               end).
  set (qt := fun (t : string) (i : Config.t) => is_substring t (Config.object_type i)).
  assert (Hn : filter_by_name Config.name (map VStr ns) items =
               Ok (List.concat (map (fun n => filter (qn n) items) ns))).
  { apply filter_by_name_total. intros n i _ Hi.
    rewrite Forall_forall in Hnamed. destruct (Hnamed i Hi) as [s Hname].
    unfold qn. rewrite Hname. reflexivity. }
  assert (Ht : filter_by_name (fun _i => VStr (Config.object_type _i)) (map VStr ts) items =
               Ok (List.concat (map (fun t => filter (qt t) items) ts))).
  { apply filter_by_name_total. intros; reflexivity. }
  assert (Hqn : forall n i, In i items -> (qn n i = true <-> matches_name n i)).
  { intros n i Hi. rewrite Forall_forall in Hnamed. destruct (Hnamed i Hi) as [s Hname].
    unfold qn, matches_name. rewrite Hname. simpl. split; congruence. }
  unfold apply_filters. rewrite Hn, Ht. cbn [bindR]. rewrite !length_map.
  destruct ns as [| n ns']; destruct ts as [| t ts']; cbn [List.length Nat.ltb Nat.leb orb andb].
  - exists (PyList items). split; [reflexivity |]. intros i. simpl. tauto.
  - eexists. split; [reflexivity |]. intros i. cbn [elements set].
    rewrite (@distinct_In _ _ _ i Hs), in_matches. split.
    + intros [Hi [t0 [H0 Hq]]]. split; [exact Hi |]. split; [left; reflexivity |].
      right. exists t0. split; assumption.
    + intros [Hi [_ [Hf | [t0 [H0 Hq]]]]]; [discriminate |].
      split; [exact Hi |]. exists t0. split; assumption.
  - eexists. split; [reflexivity |]. intros i. cbn [elements set].
    rewrite (@distinct_In _ _ _ i Hs), in_matches. split.
    + intros [Hi [n0 [H0 Hq]]]. split; [exact Hi |]. split; [| left; reflexivity].
      right. exists n0. split; [exact H0 | apply Hqn; assumption].
    + intros [Hi [[Hf | [n0 [H0 Hq]]] _]]; [discriminate |].
      split; [exact Hi |]. exists n0. split; [exact H0 | apply Hqn; assumption].
  - eexists. split; [reflexivity |]. intros i. cbn [elements].
    rewrite (@intersection_In _ _ _ _ i Hs), !(@distinct_In _ _ _ i Hs), !in_matches. split.
    + intros [[Hi [n0 [H0 Hq]]] [_ [t0 [H1 Hq']]]]. split; [exact Hi |]. split.
      * right. exists n0. split; [exact H0 | apply Hqn; assumption].
      * right. exists t0. split; assumption.
    + intros [Hi [[Hf | [n0 [H0 Hq]]] [Hf' | [t0 [H1 Hq']]]]]; try discriminate.
      split; (split; [exact Hi |]).
      * exists n0. split; [exact H0 | apply Hqn; assumption].
      * exists t0. split; assumption.
Qed.

Lemma apply_filters_or_within_and_across_witness :
  let gateway := Config.IstioConfig (VStr "foobar") (VStr "bookinfo") "Gateway" VALID in
  let virtual_service :=
    Config.IstioConfig (VStr "foobar") (VStr "bookinfo") "VirtualService" VALID in
  exists result,
    apply_filters Fixture.bookinfo (map VStr ["foo"]) (map VStr ["Gateway"])
      [gateway; virtual_service] = Ok result /\
    forall i, In i (elements result) <->
              In i [gateway; virtual_service] /\
              (["foo"] = [] \/ exists n, In n ["foo"] /\ matches_name n i) /\
              (["Gateway"] = [] \/ exists t, In t ["Gateway"] /\ matches_type t i).
Proof.
  intros gateway virtual_service.
  apply (@apply_filters_or_within_and_across Fixture.bookinfo ["foo"] ["Gateway"]
           [gateway; virtual_service]).
  - intros a b. reflexivity.
  - repeat constructor; eexists; reflexivity.
Defined.

(** ** Defensive reads *)

(** Peels the first step off a computation known to return. *)
Ltac returned H :=
  match type of H with
  | bindR ?c _ = Ok _ =>
      let E := fresh "E" in
      destruct c eqn:E; [cbn [bindR] in H | discriminate H]
  end.

(** A route whose weight is exactly 0 gets the weight [None]. *)
Theorem zero_weight_is_none (_route : value) (w : VirtualServiceWeight.t) :
  route_weight _route = Ok w ->
  getitem _route "weight" = Ok (VInt 0) ->
  VirtualServiceWeight.weight w = VNone.
Proof.
  intros H Hw. unfold route_weight in H.
  repeat returned H. injection H as <-. simpl.
  assert (Hn : a5 = false).
  { destruct a4; [| congruence]. rewrite Hw in E5. simpl in E5. congruence. }
  subst a5. congruence.
Qed.

Lemma zero_weight_is_none_witness :
  let route := VDict [("destination", VDict [("host", VStr "reviews")]);
                      ("weight", VInt 0)] in
  match route_weight route with
  | Ok w => VirtualServiceWeight.weight w
  | Raise _ => VInt 0
  end = VNone.
Proof.
  intro route.
  apply (@zero_weight_is_none route
           (VirtualServiceWeight.mk (VStr "reviews") VNone VNone VNone VNone));
    reflexivity.
Defined.

(** An object without a ["labels"] key has the empty mapping for labels. *)
Theorem get_labels_absent (d : list (string * value)) :
  lookup "labels" d = None -> get_labels (VDict d) = Ok (VDict []).
Proof. intros H. unfold get_labels. simpl. rewrite H. reflexivity. Qed.

Lemma get_labels_absent_witness :
  get_labels (VDict [("name", VStr "reviews-v1")]) = Ok (VDict []).
Proof. apply get_labels_absent. reflexivity. Defined.

(** * Further properties of the code *)

(** ** [Overview.__str__] and [Overview.__repr__] *)

(** [repr] of an [Overview] shows the type, the namespace, the item count and
    the healthy and unhealthy counts, and stops there: the degraded count,
    the seventh argument of a template with six fields, is not shown, so two
    overviews that differ in it alone have one [repr]; [str] shows all six
    attributes. *)
Theorem repr_leaves_degraded_out (repr : value -> string) (self : Overview.t) :
  Overview_repr repr self =
  Ok ("Overview(" ++ repr (Overview.overview_type self) ++ ", " ++
      repr (Overview.namespace self) ++ ", " ++ repr (Overview.items self) ++ ", " ++
      repr (Overview.healthy self) ++ ", " ++ repr (Overview.unhealthy self) ++ ")") /\
  (forall d, Overview_repr repr (with_degraded self d) = Overview_repr repr self) /\
  Overview_str repr self =
  Ok ("overview_type:" ++ repr (Overview.overview_type self) ++ ", namespace:" ++
      repr (Overview.namespace self) ++ ", items:" ++ repr (Overview.items self) ++
      ",             healthy:" ++ repr (Overview.healthy self) ++ ", unhealthy:" ++
      repr (Overview.unhealthy self) ++ ", degraded:" ++ repr (Overview.degraded self)).
Proof.
  assert (Hnil : forall a, (a ++ "")%string = a).
  { induction a as [| x a IH]; simpl; [reflexivity | rewrite IH; reflexivity]. }
  unfold Overview_repr, Overview_str, with_degraded. cbn [format bindR].
  repeat split; cbn; rewrite ?Hnil; reflexivity.
Qed.

(** ** Listings *)

Lemma forR_of_Forall2 {A B} (f : A -> result B) (l : list A) (ys : list B) :
  Forall2 (fun x y => f x = Ok y) l ys -> forR f l = Ok ys.
Proof.
  induction 1 as [| x y xs ys Hx _ IH]; [reflexivity |].
  simpl. rewrite Hx. simpl. rewrite IH. reflexivity.
Qed.

Lemma forR_length {A B} (f : A -> result B) (l : list A) (ys : list B) :
  forR f l = Ok ys -> List.length ys = List.length l.
Proof.
  revert ys. induction l as [| x xs IH]; intros ys H; simpl in H.
  - injection H as <-. reflexivity.
  - destruct (f x); [| discriminate]. simpl in H.
    destruct (forR f xs) as [zs |]; [| discriminate]. simpl in H.
    injection H as <-. simpl. rewrite (IH zs eq_refl). reflexivity.
Qed.

(** An empty or absent listing of namespaces gives the empty list, and a
    listing gives the names of its entries, in order. *)
Theorem namespace_list_names (E : Env) (s s' : state E) (entities_j : value) :
  request E "namespaceList" [] [] s = (Ok entities_j, s') ->
  (truthy entities_j = false -> namespace_list E s = (Ok [], s')) /\
  (forall l names, entities_j = VList l ->
     Forall2 (fun entity_j name => getitem entity_j "name" = Ok name) l names ->
     namespace_list E s = (Ok names, s')).
Proof.
  intros H. unfold namespace_list, get_response, bind. rewrite H. split.
  - intros Hf. rewrite Hf. reflexivity.
  - intros l names -> HF. destruct l as [| e l'].
    + inversion HF. reflexivity.
    + cbn [truthy]. unfold lift. cbn [iter bindR].
      rewrite (forR_of_Forall2 _ HF). reflexivity.
Qed.

Lemma namespace_list_names_witness :
  namespace_list Fixture.bookinfo 0 = (Ok [VStr "bookinfo"], 1) /\
  namespace_list Fixture.nothing 0 = (Ok [], 1).
Proof.
  split.
  - apply (proj2 (@namespace_list_names Fixture.bookinfo 0 1 _ eq_refl)
             [VDict [("name", VStr "bookinfo")]] [VStr "bookinfo"] eq_refl).
    repeat constructor.
  - apply (proj1 (@namespace_list_names Fixture.nothing 0 1 _ eq_refl)). reflexivity.
Defined.

(** A namespace whose listing carries nothing ([null], or an empty list)
    under ["applications"] or ["workloads"] contributes no application and no
    workload; under ["services"] an empty list does the same, but [null]
    raises [TypeError]: [service_list] iterates without the guard that its
    two siblings have. *)
Theorem listing_of_nothing (E : Env) (_namespace : value) (s s' : state E) (_data : value) :
  (get_response E "appList" [("namespace", _namespace)] s = (Ok _data, s') ->
   forall v, getitem _data "applications" = Ok v -> truthy v = false ->
   application_list E [_namespace] [] s = (Ok (PyList []), s')) /\
  (get_response E "workloadList" [("namespace", _namespace)] s = (Ok _data, s') ->
   forall v, getitem _data "workloads" = Ok v -> truthy v = false ->
   workload_list E [_namespace] [] s = (Ok (PyList []), s')) /\
  (get_response E "serviceList" [("namespace", _namespace)] s = (Ok _data, s') ->
   (getitem _data "services" = Ok (VList []) ->
    service_list E [_namespace] [] s = (Ok (PyList []), s')) /\
   (getitem _data "services" = Ok VNone ->
    service_list E [_namespace] [] s = (Raise TypeError, s'))).
Proof.
  split; [| split].
  - intros H v Hv Hf. unfold application_list, scope. cbn [List.length Nat.ltb Nat.leb].
    rewrite bind_ret. cbn [forM]. unfold bind, lift, ret. rewrite H, Hv, Hf. reflexivity.
  - intros H v Hv Hf. unfold workload_list, scope. cbn [List.length Nat.ltb Nat.leb].
    rewrite bind_ret. cbn [forM]. unfold bind, lift, ret. rewrite H, Hv, Hf. reflexivity.
  - intros H. split; intros Hv; unfold service_list, scope;
      cbn [List.length Nat.ltb Nat.leb]; rewrite bind_ret; cbn [forM];
      unfold bind, lift, ret; rewrite H, Hv; reflexivity.
Qed.

Lemma listing_of_nothing_witness :
  application_list Sample.hollow [VStr "bookinfo"] [] 0 = (Ok (PyList []), 1) /\
  workload_list Sample.hollow [VStr "bookinfo"] [] 0 = (Ok (PyList []), 1) /\
  service_list Sample.hollow [VStr "bookinfo"] [] 0 = (Raise TypeError, 1).
Proof.
  destruct (@listing_of_nothing Sample.hollow (VStr "bookinfo") 0 1
              (VDict [("services", VNone); ("applications", VNone); ("workloads", VNone)]))
    as (Ha & Hw & Hs).
  split; [apply (Ha eq_refl VNone); reflexivity |].
  split; [apply (Hw eq_refl VNone); reflexivity |].
  apply (proj2 (Hs eq_refl)). reflexivity.
Defined.

Lemma filterR_In {A} (p : A -> result bool) (l r : list A) :
  filterR p l = Ok r -> forall x, In x r <-> In x l /\ p x = Ok true.
Proof.
  revert r. induction l as [| y ys IH]; intros r H x; simpl in H.
  - injection H as <-. simpl. tauto.
  - destruct (p y) as [b |] eqn:Hy; [| discriminate]. simpl in H.
    destruct (filterR p ys) as [zs |]; [| discriminate]. simpl in H.
    injection H as <-. specialize (IH zs eq_refl x).
    destruct b; simpl; rewrite ?IH; split.
    + intros [-> | [H1 H2]]; [split; [left; reflexivity | exact Hy] | tauto].
    + intros [[-> | H1] H2]; [left; reflexivity | right; tauto].
    + tauto.
    + intros [[-> | H1] H2]; [congruence | tauto].
Qed.

Lemma forR_inv {A B} (f : A -> result B) (l : list A) (ys : list B) :
  forR f l = Ok ys -> Forall2 (fun x y => f x = Ok y) l ys.
Proof.
  revert ys. induction l as [| x xs IH]; intros ys H; simpl in H.
  - injection H as <-. constructor.
  - destruct (f x) as [y |] eqn:Hx; [| discriminate]. simpl in H.
    destruct (forR f xs) as [zs |]; [| discriminate]. simpl in H.
    injection H as <-. constructor; [exact Hx | apply IH; reflexivity].
Qed.

Lemma filter_by_name_In {A} (name_of : A -> value) (names : list value) (items r : list A) :
  filter_by_name name_of names items = Ok r ->
  forall i, In i r <->
            In i items /\ exists n, In n names /\ contains n (name_of i) = Ok true.
Proof.
  unfold filter_by_name. intros H i.
  destruct (forR _ names) as [found |] eqn:Hfound; [| discriminate].
  simpl in H. injection H as <-. apply forR_inv in Hfound.
  rewrite in_concat. split.
  - intros [l [Hl Hi]].
    induction Hfound as [| n l' ns ls Hn _ IH]; [contradiction |].
    destruct Hl as [-> | Hl].
    + apply (filterR_In _ _ Hn) in Hi. destruct Hi as [Hi Hc].
      split; [exact Hi |]. exists n. split; [left; reflexivity | exact Hc].
    + destruct (IH Hl) as [Hi' [n' [Hn' Hc]]].
      split; [exact Hi' |]. exists n'. split; [right; exact Hn' | exact Hc].
  - intros [Hi [n [Hn Hc]]].
    induction Hfound as [| n' l' ns ls Hn' _ IH]; [contradiction |].
    destruct Hn as [-> | Hn].
    + exists l'. split; [left; reflexivity |].
      apply (filterR_In _ _ Hn'). split; assumption.
    + destruct (IH Hn) as [l [Hl Hil]]. exists l. split; [right; exact Hl | exact Hil].
Qed.

Lemma distinct_incl {A} (same : A -> A -> bool) (l : list A) :
  incl (distinct same l) l.
Proof.
  induction l as [| x xs IH]; intros y Hy; [exact Hy |].
  simpl in Hy. destruct Hy as [-> | Hy]; [left; reflexivity |].
  apply filter_In in Hy. right. apply IH. exact (proj1 Hy).
Qed.

Lemma pairwise_filter {A} (R : A -> A -> Prop) (p : A -> bool) (l : list A) :
  ForallOrdPairs R l -> ForallOrdPairs R (filter p l).
Proof.
  induction 1 as [| x xs Hx _ IH]; simpl; [constructor |].
  destruct (p x); [| exact IH].
  constructor; [| exact IH].
  apply Forall_forall. intros y Hy. apply filter_In in Hy.
  rewrite Forall_forall in Hx. apply Hx. exact (proj1 Hy).
Qed.

Lemma distinct_pairwise {A} (same : A -> A -> bool) (l : list A) :
  pairwise_distinct same (distinct same l).
Proof.
  unfold pairwise_distinct. induction l as [| x xs IH]; simpl; [constructor |].
  constructor.
  - apply Forall_forall. intros y Hy. apply filter_In in Hy.
    destruct Hy as [_ Hy]. destruct (same x y); [discriminate | reflexivity].
  - apply pairwise_filter. exact IH.
Qed.

(** The end of the three listings: with no name given the items come back
    as the list they are; with names given they come back as a set. *)
Lemma listing_result (E : Env) {A} (same : A -> A -> bool) (name_of : A -> value)
  (names : list value) (items : list A) (s s' : state E) (c : collection A) :
  (if Nat.ltb 0 (List.length names)
   then bind (lift E (filter_by_name name_of names items))
          (fun filtered_list => ret E (set same filtered_list))
   else ret E (PyList items)) s = (Ok c, s') ->
  (names = [] -> c = PyList items) /\
  (names <> [] ->
   exists members,
     c = PySet members /\ pairwise_distinct same members /\
     forall m, In m members ->
               In m items /\ exists n, In n names /\ contains n (name_of m) = Ok true).
Proof.
  intros H. destruct names as [| n ns].
  - cbn in H. injection H as <- _. split; [reflexivity | congruence].
  - cbn [List.length Nat.ltb Nat.leb] in H. unfold bind, lift, ret in H.
    destruct (filter_by_name name_of (n :: ns) items) as [r |] eqn:Hr; [| discriminate].
    injection H as <- _. split; [discriminate |]. intros _.
    exists (distinct same r). split; [reflexivity |].
    split; [apply distinct_pairwise |].
    intros m Hm. apply distinct_incl in Hm.
    apply (filter_by_name_In _ _ _ Hr). exact Hm.
Qed.

(** With names to look for, [service_list], [application_list] and
    [workload_list] return a set: no two members are the same, and the name
    of every member contains one of the names; with no name they return a
    list. *)
Theorem listings_filter_by_name (E : Env) (namespaces names : list value) (s s' : state E) :
  (forall c, service_list E namespaces names s = (Ok c, s') ->
     (names = [] -> exists l, c = PyList l) /\
     (names <> [] ->
      exists members,
        c = PySet members /\ pairwise_distinct (same_service E) members /\
        forall m, In m members ->
                  exists n, In n names /\ contains n (Service.name m) = Ok true)) /\
  (forall c, application_list E namespaces names s = (Ok c, s') ->
     (names = [] -> exists l, c = PyList l) /\
     (names <> [] ->
      exists members,
        c = PySet members /\ pairwise_distinct (same_application E) members /\
        forall m, In m members ->
                  exists n, In n names /\ contains n (Application.name m) = Ok true)) /\
  (forall c, workload_list E namespaces names s = (Ok c, s') ->
     (names = [] -> exists l, c = PyList l) /\
     (names <> [] ->
      exists members,
        c = PySet members /\ pairwise_distinct (same_workload E) members /\
        forall m, In m members ->
                  exists n, In n names /\ contains n (Workload.name m) = Ok true)).
Proof.
  assert (Hend : forall (A : Type) (same : A -> A -> bool) (name_of : A -> value)
                        (items : list A) (s1 : state E) (c : collection A),
             (if Nat.ltb 0 (List.length names)
              then bind (lift E (filter_by_name name_of names items))
                     (fun filtered_list => ret E (set same filtered_list))
              else ret E (PyList items)) s1 = (Ok c, s') ->
             (names = [] -> exists l, c = PyList l) /\
             (names <> [] ->
              exists members,
                c = PySet members /\ pairwise_distinct same members /\
                forall m, In m members ->
                          exists n, In n names /\ contains n (name_of m) = Ok true)).
  { intros A same name_of items s1 c H.
    destruct (listing_result _ _ _ _ _ _ H) as [H1 H2]. split.
    - intros Hn. exists items. apply H1. exact Hn.
    - intros Hn. destruct (H2 Hn) as [members [Hc [Hp Hm]]].
      exists members. split; [exact Hc |]. split; [exact Hp |].
      intros m Hin. exact (proj2 (Hm m Hin)). }
  split; [| split]; intros c H.
  - unfold service_list in H. unfold bind at 1 in H.
    destruct (scope E namespaces s) as [[nl | ?] s1]; [| discriminate].
    unfold bind at 1 in H.
    destruct (forM _ nl s1) as [[found | ?] s2]; [| discriminate].
    exact (Hend _ _ _ _ _ _ H).
  - unfold application_list in H. unfold bind at 1 in H.
    destruct (scope E namespaces s) as [[nl | ?] s1]; [| discriminate].
    unfold bind at 1 in H.
    destruct (forM _ nl s1) as [[found | ?] s2]; [| discriminate].
    exact (Hend _ _ _ _ _ _ H).
  - unfold workload_list in H. unfold bind at 1 in H.
    destruct (scope E namespaces s) as [[nl | ?] s1]; [| discriminate].
    unfold bind at 1 in H.
    destruct (forM _ nl s1) as [[found | ?] s2]; [| discriminate].
    exact (Hend _ _ _ _ _ _ H).
Qed.

Lemma listings_filter_by_name_witness :
  exists members,
    fst (service_list Sample.two_services [VStr "bookinfo"] [VStr "rev"; VStr "views"] 0)
    = Ok (PySet members) /\
    pairwise_distinct (same_service Sample.two_services) members /\
    forall m, In m members ->
              exists n, In n [VStr "rev"; VStr "views"] /\
                        contains n (Service.name m) = Ok true.
Proof.
  destruct (@listings_filter_by_name Sample.two_services [VStr "bookinfo"]
              [VStr "rev"; VStr "views"] 0 3) as [H _].
  destruct (H (PySet [Service.mk (VStr "bookinfo") (VStr "reviews") (VBool true) None])
              eq_refl) as [_ H2].
  destruct H2 as [members [Hc Hrest]]; [discriminate |].
  exists members. split; [| exact Hrest].
  injection Hc as <-. reflexivity.
Defined.

(** ** Verdict and messages of a validation *)

Lemma error_found (checks sevs : list value) :
  Forall2 (fun c sev => getitem c "severity" = Ok sev) checks sevs ->
  existsb (eqb (VStr "error")) sevs = true ->
  Exists (fun c => getitem c "severity" = Ok (VStr "error")) checks.
Proof.
  induction 1 as [| c sev cs sevs Hc _ IH]; cbn [existsb]; intros H; [discriminate |].
  apply orb_true_iff in H. destruct H as [H | H].
  - left. destruct sev; try discriminate. cbn [eqb] in H.
    apply String.eqb_eq in H. subst. exact Hc.
  - right. apply IH. exact H.
Qed.

(** On a validation document whose checks all carry a severity, the verdict
    is settled by the checks alone: VALID exactly when there is no check,
    NOT_VALID exactly when some check has severity "error", WARNING exactly
    when there are checks and none has; and it is never NA. *)
Theorem verdict_of_checks (kvs : list (string * value)) (checks : list value) :
  lookup "checks" kvs = Some (VList checks) ->
  Forall (fun c => exists sev, has_severity c sev) checks ->
  let errors := Exists (fun c => getitem c "severity" = Ok (VStr "error")) checks in
  (verdict (VDict kvs) = Ok VALID <-> checks = []) /\
  (verdict (VDict kvs) = Ok NOT_VALID <-> errors) /\
  (verdict (VDict kvs) = Ok WARNING <-> checks <> [] /\ ~ errors) /\
  verdict (VDict kvs) <> Ok NA.
Proof.
  intros Hk HF errors. destruct checks as [| c cs].
  - rewrite (verdict_no_checks _ Hk). unfold errors.
    repeat split; try discriminate; try reflexivity.
    + intros H. inversion H.
    + intros [H _]. congruence.
  - destruct (severities_read HF) as [sevs [Hs H2]].
    rewrite (verdict_checks _ Hk Hs).
    destruct (existsb (eqb (VStr "error")) sevs) eqn:He.
    + assert (Herr : errors) by exact (error_found H2 He).
      repeat split; try discriminate; try (intros; assumption); try reflexivity.
      intros [_ Hn]. contradiction.
    + assert (Hno : ~ errors).
      { intros Herr. rewrite (error_among H2 Herr) in He. discriminate. }
      repeat split; try discriminate; try assumption; try reflexivity.
      intros Herr. contradiction.
Qed.

Lemma verdict_of_checks_witness :
  verdict (Fixture.checked [Fixture.check "warning" "KIA1102";
                            Fixture.check "error" "KIA1101"]) = Ok NOT_VALID.
Proof.
  apply (proj1 (proj2 (@verdict_of_checks
                         [("name", VStr "reviews"); ("objectType", VStr "virtualservice");
                          ("valid", VBool false);
                          ("checks", VList [Fixture.check "warning" "KIA1102";
                                            Fixture.check "error" "KIA1101"])]
                         [Fixture.check "warning" "KIA1102";
                          Fixture.check "error" "KIA1101"]
                         eq_refl
                         ltac:(repeat constructor; eexists; split; reflexivity)))).
  right. left. reflexivity.
Defined.

(** The messages of a validation are those of its checks, one for each, in
    order; an absent validation document has none. *)
Theorem messages_of_checks (E : Env) (namespace object_type object_name : value)
  (s s' : state E) (d : value) :
  get_validation E "istioConfigDetails"
    (validation_path namespace object_type object_name) s = (Ok d, s') ->
  (truthy d = false ->
   get_istio_config_messages E namespace object_type object_name s = (Ok [], s')) /\
  (forall kvs checks messages, d = VDict kvs ->
     lookup "checks" kvs = Some (VList checks) ->
     Forall2 (fun c m => getitem c "message" = Ok m) checks messages ->
     get_istio_config_messages E namespace object_type object_name s = (Ok messages, s')).
Proof.
  intros H. unfold get_istio_config_messages, bind.
  unfold validation_path in H. rewrite H. unfold lift. split.
  - intros Hf. rewrite Hf. reflexivity.
  - intros kvs checks messages -> Hk HF.
    rewrite (truthy_dict_with _ _ Hk). unfold getitem at 1 2. rewrite Hk.
    destruct checks as [| c cs].
    + inversion HF. reflexivity.
    + cbn [bindR len List.length Nat.ltb Nat.leb iter].
      rewrite (forR_of_Forall2 _ HF). reflexivity.
Qed.

Lemma messages_of_checks_witness :
  get_istio_config_messages
    (Fixture.validating (Fixture.checked [Fixture.check "warning" "KIA1102";
                                          Fixture.check "error" "KIA1101"]))
    (VStr "bookinfo") (VStr "virtualservices") (VStr "reviews") 0
  = (Ok [VStr "KIA1102"; VStr "KIA1101"], 1).
Proof.
  eapply (proj2 (@messages_of_checks
                   (Fixture.validating
                      (Fixture.checked [Fixture.check "warning" "KIA1102";
                                        Fixture.check "error" "KIA1101"]))
                   (VStr "bookinfo") (VStr "virtualservices") (VStr "reviews") 0 1 _
                   eq_refl)).
  - reflexivity.
  - reflexivity.
  - repeat constructor.
Defined.

(** ** Status of a pod *)

(** A pod is VALID exactly when the workload has its sidecar and the pod has
    its version label and its app label; anything else is a WARNING. Without
    a sidecar the pod is not even looked at. *)
Theorem pod_status (istioSidecar pod_data : value) :
  (truthy istioSidecar = false -> get_pod_status istioSidecar pod_data = Ok WARNING) /\
  (forall versionLabel appLabel,
     getitem pod_data "versionLabel" = Ok versionLabel ->
     getitem pod_data "appLabel" = Ok appLabel ->
     get_pod_status istioSidecar pod_data =
     Ok (if truthy istioSidecar && truthy versionLabel && truthy appLabel
         then VALID else WARNING)).
Proof.
  unfold get_pod_status. split.
  - intros H. rewrite H. reflexivity.
  - intros v a Hv Ha. rewrite Hv, Ha. simpl.
    destruct (truthy istioSidecar), (truthy v), (truthy a); reflexivity.
Qed.

Lemma pod_status_witness :
  get_pod_status (VBool true)
    (VDict [("versionLabel", VBool true); ("appLabel", VBool false)]) = Ok WARNING /\
  get_pod_status (VBool false) (VDict []) = Ok WARNING.
Proof.
  split.
  - apply (proj2 (pod_status (VBool true)
                    (VDict [("versionLabel", VBool true); ("appLabel", VBool false)]))
             (VBool true) (VBool false)); reflexivity.
  - apply (proj1 (pod_status (VBool false) (VDict []))). reflexivity.
Defined.

(** ** The Istio config of a namespace *)

Lemma nonempty_of_empty (v : value) (k : string) :
  (exists x, getitem v k = Ok x /\ len x = Ok 0) -> nonempty v k = Ok false.
Proof. intros [x [Hx Hl]]. unfold nonempty. rewrite Hx. simpl. rewrite Hl. reflexivity. Qed.

Lemma nonempty_inv (v : value) (k : string) (b : bool) :
  nonempty v k = Ok b -> exists x n, getitem v k = Ok x /\ len x = Ok n.
Proof.
  unfold nonempty. intros H.
  destruct (getitem v k) as [x |]; [| discriminate]. simpl in H.
  destruct (len x) as [n |] eqn:Hn; [| discriminate]. exists x, n.
  split; [reflexivity | exact Hn].
Qed.

Lemma configs_inv (E : Env) (_data _namespace : value) (category : string)
  (object_type : IstioConfigObjectType) (kind : string) (s s' : state E)
  (r : list Config.t) :
  configs E _data _namespace category object_type kind s = (Ok r, s') ->
  exists x n, getitem _data category = Ok x /\ len x = Ok n.
Proof.
  unfold configs, bind, lift. intros H.
  destruct (nonempty _data category) as [b |] eqn:Hb; [| discriminate].
  exact (nonempty_inv _ _ Hb).
Qed.

Lemma configs_with_items_inv (E : Env) (_data _namespace : value) (category : string)
  (object_type : IstioConfigObjectType) (kind : string) (s s' : state E)
  (r : list Config.t) :
  configs_with_items E _data _namespace category object_type kind s = (Ok r, s') ->
  exists x n, getitem _data category = Ok x /\ len x = Ok n.
Proof.
  unfold configs_with_items, bind, lift. intros H.
  destruct (nonempty _data category) as [b |] eqn:Hb; [| discriminate].
  exact (nonempty_inv _ _ Hb).
Qed.

Lemma rules_inv (_data _namespace : value) (r : list Config.t) :
  rules _data _namespace = Ok r ->
  exists x n, getitem _data "rules" = Ok x /\ len x = Ok n.
Proof.
  unfold rules. intros H.
  destruct (nonempty _data "rules") as [b |] eqn:Hb; [| discriminate].
  exact (nonempty_inv _ _ Hb).
Qed.

Lemma rules_with_subkind_inv (E : Env) (_data _namespace : value) (category : string)
  (object_type : IstioConfigObjectType) (subkind : string) (r : list Config.t) :
  rules_with_subkind E _data _namespace category object_type subkind = Ok r ->
  exists x n, getitem _data category = Ok x /\ len x = Ok n.
Proof.
  unfold rules_with_subkind. intros H.
  destruct (nonempty _data category) as [b |] eqn:Hb; [| discriminate].
  exact (nonempty_inv _ _ Hb).
Qed.

(** A namespace whose nine categories are all there and all empty has no
    items, and costs the one request for its config: no validation is asked
    for. *)
Theorem empty_config_has_no_items (E : Env) (_namespace : value) (s s1 : state E)
  (_data : value) :
  get_response E "istioConfigList" [("namespace", _namespace)] s = (Ok _data, s1) ->
  (forall k, In k categories -> exists x, getitem _data k = Ok x /\ len x = Ok 0) ->
  namespace_configs E _namespace s = (Ok [], s1).
Proof.
  intros H Hall.
  assert (Hk : forall k, In k categories -> nonempty _data k = Ok false).
  { intros k Hin. apply nonempty_of_empty. apply Hall. exact Hin. }
  unfold namespace_configs, bind. rewrite H.
  unfold configs_with_items, configs, rules, rules_with_subkind, bind, lift, ret.
  rewrite !Hk by (simpl; tauto). reflexivity.
Qed.

Lemma empty_config_has_no_items_witness :
  namespace_configs Sample.empty_config (VStr "bookinfo") 0 = (Ok [], 1).
Proof.
  eapply (@empty_config_has_no_items Sample.empty_config (VStr "bookinfo") 0 1 _ eq_refl).
  intros k Hk. simpl in Hk.
  repeat (destruct Hk as [<- | Hk]; [eexists; split; reflexivity |]).
  contradiction.
Defined.

(** The items of a namespace are returned only if every one of the nine
    categories is there and has a length: a category that is missing
    ([KeyError]) or [null] ([TypeError]) makes the listing raise. *)
Theorem every_category_is_required (E : Env) (_namespace : value) (s s' s1 : state E)
  (items : list Config.t) (_data : value) :
  namespace_configs E _namespace s = (Ok items, s') ->
  get_response E "istioConfigList" [("namespace", _namespace)] s = (Ok _data, s1) ->
  forall k, In k categories -> exists x n, getitem _data k = Ok x /\ len x = Ok n.
Proof.
  unfold namespace_configs, bind, lift, ret. intros H Hdata. rewrite Hdata in H.
  destruct (configs_with_items E _data _namespace "destinationRules" _ _ s1)
    as [[a | ?] s2] eqn:Ha; [| discriminate].
  destruct (rules _data _namespace) as [b | ?] eqn:Hb; [| discriminate].
  destruct (rules_with_subkind E _data _namespace "adapters" ADAPTER "adapter")
    as [c | ?] eqn:Hc; [| discriminate].
  destruct (rules_with_subkind E _data _namespace "templates" TEMPLATE "template")
    as [d | ?] eqn:Hd; [| discriminate].
  destruct (configs_with_items E _data _namespace "virtualServices" _ _ s2)
    as [[e | ?] s3] eqn:He; [| discriminate].
  destruct (configs E _data _namespace "quotaSpecs" _ _ s3) as [[f | ?] s4] eqn:Hf;
    [| discriminate].
  destruct (configs E _data _namespace "quotaSpecBindings" _ _ s4) as [[g | ?] s5] eqn:Hg;
    [| discriminate].
  destruct (configs E _data _namespace "gateways" _ _ s5) as [[h | ?] s6] eqn:Hh;
    [| discriminate].
  destruct (configs E _data _namespace "serviceEntries" _ _ s6) as [[i | ?] s7] eqn:Hi;
    [| discriminate].
  intros k Hk. simpl in Hk.
  destruct Hk as [<- | [<- | [<- | [<- | [<- | [<- | [<- | [<- | [<- | []]]]]]]]]].
  - exact (configs_with_items_inv _ _ _ _ _ _ _ Ha).
  - exact (rules_inv _ _ Hb).
  - exact (rules_with_subkind_inv _ _ _ _ _ _ Hc).
  - exact (rules_with_subkind_inv _ _ _ _ _ _ Hd).
  - exact (configs_with_items_inv _ _ _ _ _ _ _ He).
  - exact (configs_inv _ _ _ _ _ _ _ Hf).
  - exact (configs_inv _ _ _ _ _ _ _ Hg).
  - exact (configs_inv _ _ _ _ _ _ _ Hh).
  - exact (configs_inv _ _ _ _ _ _ _ Hi).
Qed.

Lemma every_category_is_required_witness :
  exists x n, getitem Fixture.istio_config "gateways" = Ok x /\ len x = Ok n.
Proof.
  apply (@every_category_is_required Fixture.bookinfo (VStr "bookinfo") 0 3 1
           [Config.Rule (VStr "handler") (VStr "bookinfo") "Adapter: prometheus";
            Config.IstioConfig (VStr "foobar") (VStr "bookinfo") "VirtualService" VALID;
            Config.IstioConfig (VStr "foobar") (VStr "bookinfo") "Gateway" VALID]
           Fixture.istio_config eq_refl eq_refl "gateways").
  simpl. tauto.
Defined.

(** ** Details that cannot be built *)

Lemma nothing_picked (d : value) (keys : list string) :
  (forall k, In k keys -> exists x, getitem d k = Ok x /\ truthy x = false) ->
  foldR (pick d) None keys = Ok None.
Proof.
  induction keys as [| k ks IH]; intros H; [reflexivity |].
  destruct (H k (or_introl eq_refl)) as [x [Hx Hf]].
  simpl. unfold pick at 1. rewrite Hx. simpl. rewrite Hf.
  apply IH. intros k' Hk'. apply H. right. exact Hk'.
Qed.

(** A config detail document that is there, but whose seven config entries
    are all empty, gives [None] after the one request: no validation is
    asked for. *)
Theorem config_details_without_config (E : Env) (namespace object_type object_name : value)
  (s s' : state E) (_data : value) :
  get_response E "istioConfigDetails"
    [("namespace", namespace); ("object_type", object_type); ("object", object_name)] s
  = (Ok _data, s') ->
  (forall k, In k detail_keys -> exists x, getitem _data k = Ok x /\ truthy x = false) ->
  istio_config_details E namespace object_type object_name s = (Ok None, s').
Proof.
  intros H Hall. unfold istio_config_details, bind. rewrite H.
  destruct (truthy _data); [| reflexivity].
  unfold lift.
  change (foldR (pick _data) None
            ["destinationRule"; "rule"; "virtualService"; "quotaSpec"; "quotaSpecBinding";
             "gateway"; "serviceEntry"])
    with (foldR (pick _data) None detail_keys).
  rewrite (@nothing_picked _data detail_keys Hall). reflexivity.
Qed.

Lemma config_details_without_config_witness :
  istio_config_details Sample.unlisted (VStr "bookinfo") (VStr "gateways") (VStr "gw") 0
  = (Ok None, 1).
Proof.
  eapply (@config_details_without_config Sample.unlisted (VStr "bookinfo")
            (VStr "gateways") (VStr "gw") 0 1 _ eq_refl).
  intros k Hk. simpl in Hk.
  repeat (destruct Hk as [<- | Hk]; [eexists; split; reflexivity |]).
  contradiction.
Defined.

Lemma pop_empty_set {A} (n : nat) : pop n (@PySet A []) = Raise KeyError.
Proof. unfold pop. destruct (n mod List.length (@nil A)); reflexivity. Qed.

(** When the detail document is there but the listing finds nothing whose
    name contains the name asked for, [service_details], [workload_details]
    and [application_details] raise [KeyError]: they pop from an empty
    set. *)
Theorem details_of_the_unlisted (E : Env) (namespace name : value)
  (s s1 s2 : state E) (d : value) :
  truthy d = true ->
  (get_response E "serviceDetails" [("namespace", namespace); ("service", name)] s
   = (Ok d, s1) ->
   service_list E [namespace] [name] s1 = (Ok (PySet []), s2) ->
   service_details E namespace name s = (Raise KeyError, s2)) /\
  (get_response E "workloadDetails" [("namespace", namespace); ("workload", name)] s
   = (Ok d, s1) ->
   workload_list E [namespace] [name] s1 = (Ok (PySet []), s2) ->
   workload_details E namespace name s = (Raise KeyError, s2)) /\
  (get_response E "appDetails" [("namespace", namespace); ("app", name)] s
   = (Ok d, s1) ->
   application_list E [namespace] [name] s1 = (Ok (PySet []), s2) ->
   application_details E namespace name s = (Raise KeyError, s2)).
Proof.
  intros Hd. split; [| split]; intros H Hl.
  - unfold service_details. unfold bind at 1. rewrite H, Hd.
    unfold bind at 1. rewrite Hl. unfold bind at 1, lift at 1.
    rewrite pop_empty_set. reflexivity.
  - unfold workload_details. unfold bind at 1. rewrite H, Hd.
    unfold bind at 1. rewrite Hl. unfold bind at 1, lift at 1.
    rewrite pop_empty_set. reflexivity.
  - unfold application_details. unfold bind at 1. rewrite H, Hd.
    unfold bind at 1. rewrite Hl. unfold bind at 1, lift at 1.
    rewrite pop_empty_set. reflexivity.
Qed.

Lemma details_of_the_unlisted_witness :
  service_details Sample.unlisted (VStr "bookinfo") (VStr "reviews") 0
  = (Raise KeyError, 2) /\
  workload_details Sample.unlisted (VStr "bookinfo") (VStr "reviews") 0
  = (Raise KeyError, 2) /\
  application_details Sample.unlisted (VStr "bookinfo") (VStr "reviews") 0
  = (Raise KeyError, 2).
Proof.
  destruct (@details_of_the_unlisted Sample.unlisted (VStr "bookinfo") (VStr "reviews")
              0 1 2 Sample.document eq_refl) as (H1 & H2 & H3).
  split; [apply H1; reflexivity |].
  split; [apply H2; reflexivity | apply H3; reflexivity].
Defined.

(** ** Rows of pods *)

Lemma group_rows_related (R : WorkloadPod.t -> string * list WorkloadPod.t -> Prop) :
  (forall st p g, _pod st = Some p -> snd g <> [] ->
     exists row, group_row st g = Ok (mkLocals (Some row) (_pods st ++ [row])) /\ R row g) ->
  forall _all_pods,
  exists rows,
    group_pods (last_pod _all_pods) _all_pods = Ok rows /\
    Forall2 R rows (groupby WorkloadPod.created_by _all_pods).
Proof.
  intros Hstep l.
  assert (Hfold : forall groups : list (string * list WorkloadPod.t),
             Forall (fun g => snd g <> []) groups ->
             forall st p, _pod st = Some p ->
             exists st' rows,
               foldR group_row st groups = Ok st' /\
               _pods st' = (_pods st ++ rows)%list /\ Forall2 R rows groups).
  { induction 1 as [| g gs Hg _ IH]; intros st p Hp.
    - exists st, []. rewrite app_nil_r. repeat split. constructor.
    - destruct (Hstep st p g Hp Hg) as [row [Hrow Hl]].
      destruct (IH (mkLocals (Some row) (_pods st ++ [row])) row eq_refl)
        as [st' [rows [Hf [Hpods HF]]]].
      exists st', (row :: rows). simpl. rewrite Hrow. simpl. rewrite Hf.
      split; [reflexivity |]. split.
      + rewrite Hpods. simpl. rewrite <- app_assoc. reflexivity.
      + constructor; assumption. }
  unfold group_pods. destruct l as [| p l'].
  - exists []. split; [reflexivity | constructor].
  - destruct (last_pod_some p l') as [q Hq]. rewrite Hq.
    assert (Hne : Forall (fun g : string * list WorkloadPod.t => snd g <> [])
                    (groupby WorkloadPod.created_by (p :: l'))).
    { eapply Forall_impl; [| apply groupby_runs]. intros g [H _]. exact H. }
    destruct (Hfold _ Hne (mkLocals (Some q) []) q eq_refl) as [st' [rows [Hf [Hpods HF]]]].
    exists rows. rewrite Hf. simpl. rewrite Hpods. split; [reflexivity | exact HF].
Qed.

(** Whatever the pods, the row of every group takes its owner, labels,
    sidecar images, status and phase from the first pod of the group, and
    the row of a pod alone in its group keeps the creation time of that
    pod. *)
Theorem rows_take_after_first_pod (_all_pods : list WorkloadPod.t) :
  exists rows,
    group_pods (last_pod _all_pods) _all_pods = Ok rows /\
    Forall2 from_first rows (groupby WorkloadPod.created_by _all_pods).
Proof.
  apply group_rows_related. intros st p [k [| first [| second rest]]] Hp Hne.
  - contradiction.
  - eexists. split; [reflexivity |]. unfold from_first. simpl. repeat split.
  - eexists. split; [apply (@group_row_many st p first second rest k Hp) |].
    unfold from_first. simpl. repeat split. discriminate.
Qed.

Lemma groupby_one_owner {A} (key : A -> string) (x : A) (l : list A) :
  Forall (fun y => key y = key x) l -> groupby key (x :: l) = [(key x, x :: l)].
Proof.
  revert x. induction l as [| y ys IH]; intros x H; [reflexivity |].
  inversion H as [| ? ? Hy Hys]; subst.
  change (groupby key (x :: y :: ys))
    with (match groupby key (y :: ys) with
          | (k, g) :: gs =>
              if String.eqb (key x) k then (k, x :: g) :: gs
              else (key x, [x]) :: (k, g) :: gs
          | [] => [(key x, [x])]
          end).
  rewrite IH.
  - rewrite Hy, String.eqb_refl. reflexivity.
  - eapply Forall_impl; [| exact Hys]. intros z Hz. rewrite Hz, Hy. reflexivity.
Qed.

Lemma last_pod_is_last (p : WorkloadPod.t) (l : list WorkloadPod.t) :
  last_pod (p :: l) = Some (last (p :: l) p).
Proof.
  destruct (@exists_last _ (p :: l)) as [l' [x Hx]]; [discriminate |].
  unfold last_pod. rewrite Hx, rev_unit, last_last. reflexivity.
Qed.

(** Two pods or more that all have one owner make one row, and that row is
    written from the last pod: its name is the name of the last pod without
    its last five characters, followed by the replica count, and its creation
    time is the creation time of the last pod, twice; the creation time of
    the first pod appears nowhere. *)
Theorem one_owner_row (p q : WorkloadPod.t) (rest : list WorkloadPod.t) :
  Forall (fun x => WorkloadPod.created_by x = WorkloadPod.created_by p) (q :: rest) ->
  let _all_pods := p :: q :: rest in
  let final := last _all_pods p in
  group_pods (last_pod _all_pods) _all_pods =
  Ok [WorkloadPod.mk
        (drop_last 5 (WorkloadPod.name final) ++ "... (" ++
         str_of_nat (List.length _all_pods) ++ " replicas)")
        (WorkloadPod.created_at final ++ " and " ++ WorkloadPod.created_at final)
        (WorkloadPod.created_by p) (WorkloadPod.labels p)
        (WorkloadPod.istio_init_containers p) (WorkloadPod.istio_containers p)
        (WorkloadPod.status p) (WorkloadPod.phase p)].
Proof.
  intros H _all_pods final. subst final _all_pods. unfold group_pods.
  rewrite (@groupby_one_owner _ WorkloadPod.created_by p (q :: rest) H).
  rewrite last_pod_is_last. cbn [foldR].
  rewrite (@group_row_many (mkLocals (Some (last (p :: q :: rest) p)) [])
             (last (p :: q :: rest) p) p q rest (WorkloadPod.created_by p) eq_refl).
  reflexivity.
Qed.

Lemma one_owner_row_witness :
  group_pods (last_pod Fixture.two_replicas) Fixture.two_replicas =
  Ok [WorkloadPod.mk "details-v1-... (2 replicas)" "t2 and t2" "details-v1 (ReplicaSet)"
        (VDict []) "" "" VALID (VStr "Running")].
Proof.
  apply (@one_owner_row (Fixture.pod "details-v1-aaaaa" "t1" "details-v1 (ReplicaSet)")
           (Fixture.pod "details-v1-bbbbb" "t2" "details-v1 (ReplicaSet)") []).
  repeat constructor.
Defined.

(** A workload without pods has no rows; a workload with pods has at least
    one row and at most as many rows as pods. *)
Theorem workload_pods_bounds (E : Env) (_workload_data : value) :
  (forall v, getitem _workload_data "pods" = Ok v -> truthy v = false ->
     workload_pods E _workload_data = Ok []) /\
  (forall ps rows, getitem _workload_data "pods" = Ok (VList ps) ->
     workload_pods E _workload_data = Ok rows ->
     List.length rows <= List.length ps /\ (ps <> [] -> rows <> [])).
Proof.
  unfold workload_pods. split.
  - intros v Hv Hf. rewrite Hv. cbn [bindR]. rewrite Hf. reflexivity.
  - intros ps rows Hget H. rewrite Hget in H. cbn [bindR] in H.
    destruct ps as [| pd ps'].
    + cbn in H. injection H as <-. split; [apply Nat.le_refl | congruence].
    + cbn [truthy iter bindR] in H.
      destruct (forR (workload_pod E _workload_data) (pd :: ps')) as [all |] eqn:Hall;
        [| discriminate].
      cbn [bindR] in H. apply forR_length in Hall.
      destruct (@group_rows_related (fun _ _ => True)
                  ltac:(intros st p g Hp Hg;
                        destruct (group_row_labelled st g Hp Hg) as [row [Hr _]];
                        exists row; split; [exact Hr | exact I]) all)
        as [rows' [Hrows HF]].
      rewrite Hrows in H. injection H as <-.
      assert (Hlen := Forall2_length HF).
      assert (Hg := groupby_length WorkloadPod.created_by all).
      split; [rewrite Hlen, <- Hall; exact Hg |].
      intros _ ->. destruct all as [| a all']; [discriminate |].
      simpl in HF. destruct (groupby WorkloadPod.created_by all') as [| [k g] gs];
        [inversion HF |].
      destruct (String.eqb (WorkloadPod.created_by a) k); inversion HF.
Qed.

Lemma workload_pods_bounds_witness :
  match workload_pods Fixture.nothing Sample.three_pods with
  | Ok rows => List.length rows
  | Raise _ => 4
  end <= 3.
Proof.
  apply (proj2 (workload_pods_bounds Fixture.nothing Sample.three_pods)
           [Sample.pod_data "reviews-v1-aaaaa" "t1"; Sample.pod_data "reviews-v1-bbbbb" "t2";
            Sample.pod_data "reviews-v1-ccccc" "t3"]
           [WorkloadPod.mk "reviews-v1-... (3 replicas)" "t3 and t3" "reviews-v1 (ReplicaSet)"
              (VDict []) "" "proxyv2" VALID (VStr "Running")]
           eq_refl eq_refl).
Defined.

(** ** Labels of subsets *)

(** A subset without a name, or with a name and without labels, adds nothing
    to the labels of the subsets: it is passed over, not an error. *)
Theorem subset_passed_over (E : Env) (_subset : value) (rest : list value) :
  contains (VStr "name") _subset = Ok false \/
  (contains (VStr "name") _subset = Ok true /\
   contains (VStr "labels") _subset = Ok false) ->
  get_subset_labels E (VList (_subset :: rest)) = get_subset_labels E (VList rest).
Proof.
  intros H. unfold get_subset_labels. cbn [truthy iter bindR foldR].
  assert (Hstep : (has_name <- contains (VStr "name") _subset ;;
                   has_labels <- (if has_name then contains (VStr "labels") _subset
                                  else Ok false) ;;
                   if has_labels
                   then labels <- getitem _subset "labels" ;;
                        kvs <- dict_items labels ;;
                        name <- getitem _subset "name" ;;
                        key <- hashable name ;;
                        Ok (dict_set (@nil (value * list string)) key
                              (map (fun kv => fst kv ++ str E (snd kv)) kvs))
                   else Ok []) = Ok []).
  { destruct H as [H | [H1 H2]]; [rewrite H | rewrite H1; cbn [bindR]; rewrite H2];
      reflexivity. }
  rewrite Hstep. cbn [bindR]. destruct rest; reflexivity.
Qed.

Lemma subset_passed_over_witness :
  get_subset_labels Fixture.nothing
    (VList [VDict [("name", VStr "v1")];
            VDict [("name", VStr "v2"); ("labels", VDict [("version", VStr "v2")])]])
  = Ok [(VStr "v2", ["versionv2"])].
Proof.
  rewrite (@subset_passed_over Fixture.nothing (VDict [("name", VStr "v1")])
             [VDict [("name", VStr "v2"); ("labels", VDict [("version", VStr "v2")])]]).
  - reflexivity.
  - right. split; reflexivity.
Defined.

(** ** The cluster API adapter *)

(** [namespace_exists] answers [True] when the client finds the namespace and
    [False] when the client raises [NotFoundError]; it never raises
    [NotFoundError] itself. *)
Theorem namespace_exists_answers (cluster : Type)
  (resource_get : string -> string -> list (string * value) -> cluster ->
                  result value * cluster)
  (namespace : value) (c : cluster) :
  (forall v c', resource_get "Namespace" "v1" [("name", namespace)] c = (Ok v, c') ->
                namespace_exists resource_get namespace c = (Ok true, c')) /\
  (forall c', resource_get "Namespace" "v1" [("name", namespace)] c
              = (Raise NotFoundError, c') ->
              namespace_exists resource_get namespace c = (Ok false, c')) /\
  fst (namespace_exists resource_get namespace c) <> Raise NotFoundError.
Proof.
  unfold namespace_exists, property_get. cbn [lookup resource_properties String.eqb].
  cbn. split; [| split].
  - intros v c' H. rewrite H. reflexivity.
  - intros c' H. rewrite H. reflexivity.
  - destruct (resource_get "Namespace" "v1" [("name", namespace)] c) as [[v | []] c'];
      simpl; discriminate.
Qed.

Lemma namespace_exists_answers_witness :
  namespace_exists Sample.namespaces_get (VStr "bookinfo") ["default"; "bookinfo"]
  = (Ok true, ["default"; "bookinfo"]) /\
  namespace_exists Sample.namespaces_get (VStr "bookinfo2") ["default"; "bookinfo"]
  = (Ok false, ["default"; "bookinfo"]).
Proof.
  split.
  - eapply (proj1 (namespace_exists_answers Sample.namespaces_get (VStr "bookinfo")
                     ["default"; "bookinfo"])).
    reflexivity.
  - apply (proj1 (proj2 (namespace_exists_answers Sample.namespaces_get (VStr "bookinfo2")
                           ["default"; "bookinfo"]))).
    reflexivity.
Defined.

(** [_get_label] and [_contains_sidecar] never raise [KeyError],
    [AttributeError] or [TypeError], whatever the object: a label that
    cannot be read is [None], a sidecar annotation that cannot be read is no
    sidecar. *)
Theorem guarded_lookups (field item : value -> string -> result value)
  (_item : value) (label : string) :
  (forall e, _get_label field item _item label = Raise e -> lookup_failure e = false) /\
  (forall e, _contains_sidecar field item _item = Raise e -> lookup_failure e = false) /\
  (forall e, field _item "metadata" = Raise e -> lookup_failure e = true ->
             _get_label field item _item label = Ok VNone) /\
  (forall e, field _item "spec" = Raise e -> lookup_failure e = true ->
             _contains_sidecar field item _item = Ok false).
Proof.
  unfold _get_label, _contains_sidecar. repeat split.
  - intros e H.
    destruct (m <- field _item "metadata" ;; labels <- field m "labels" ;; item labels label)
      as [v | e']; [discriminate |].
    destruct (lookup_failure e') eqn:He; [discriminate |]. injection H as <-. exact He.
  - intros e H.
    destruct (spec <- field _item "spec" ;; _) as [v | e']; [destruct v; discriminate |].
    destruct (lookup_failure e') eqn:He; [discriminate |]. injection H as <-. exact He.
  - intros e H He. rewrite H. cbn [bindR]. rewrite He. reflexivity.
  - intros e H He. rewrite H. cbn [bindR]. rewrite He. reflexivity.
Qed.

Lemma guarded_lookups_witness :
  _get_label Sample.field Sample.item VNone "app" = Ok VNone /\
  _contains_sidecar Sample.field Sample.item VNone = Ok false.
Proof.
  destruct (guarded_lookups Sample.field Sample.item VNone "app") as (_ & _ & H1 & H2).
  split; [apply (H1 AttributeError) | apply (H2 AttributeError)]; reflexivity.
Defined.

(** The two clients agree on adapters and templates: for an entry that the
    backend lists with a name and a sub-kind, and a resource of the cluster
    with that name and that kind, [istio_config_list] of the REST client and
    [_resource_list] of the cluster client both build a [Rule] with the same
    name, namespace and [object_type], ["Adapter: <kind>"] or
    ["Template: <kind>"]. *)
Theorem clients_agree_on_subkinds (E : Env) (field : value -> string -> result value)
  (container_str : value -> string) (_policy _item name namespace : value) (kind : string) :
  metadata field _item "name" = Ok name ->
  metadata field _item "namespace" = Ok namespace ->
  field _item "kind" = Ok (VStr kind) ->
  (entry "adapter" _policy name kind ->
   rules_with_subkind E (VDict [("adapters", VList [_policy])]) namespace
     "adapters" ADAPTER "adapter"
   = Ok [Config.Rule name namespace ("Adapter: " ++ kind)] /\
   resource_of field container_str "Adapter" _item
   = Ok (Resource.Rule name namespace ("Adapter: " ++ kind))) /\
  (entry "template" _policy name kind ->
   rules_with_subkind E (VDict [("templates", VList [_policy])]) namespace
     "templates" TEMPLATE "template"
   = Ok [Config.Rule name namespace ("Template: " ++ kind)] /\
   resource_of field container_str "Template" _item
   = Ok (Resource.Rule name namespace ("Template: " ++ kind))).
Proof.
  intros Hn Hns Hk. split; intros [Hpn Hps]; split.
  - unfold rules_with_subkind, nonempty. cbn. rewrite Hpn, Hps. reflexivity.
  - unfold resource_of. cbn. rewrite Hn, Hns, Hk. reflexivity.
  - unfold rules_with_subkind, nonempty. cbn. rewrite Hpn, Hps. reflexivity.
  - unfold resource_of. cbn. rewrite Hn, Hns, Hk. reflexivity.
Qed.

Lemma clients_agree_on_subkinds_witness :
  rules_with_subkind Fixture.nothing (VDict [("adapters", VList [Sample.handler_policy])])
    (VStr "bookinfo") "adapters" ADAPTER "adapter"
  = Ok [Config.Rule (VStr "handler") (VStr "bookinfo") "Adapter: prometheus"] /\
  resource_of Sample.field (fun _ => "") "Adapter" Sample.handler_resource
  = Ok (Resource.Rule (VStr "handler") (VStr "bookinfo") "Adapter: prometheus").
Proof.
  apply (proj1 (@clients_agree_on_subkinds Fixture.nothing Sample.field (fun _ => "")
                  Sample.handler_policy Sample.handler_resource (VStr "handler")
                  (VStr "bookinfo") "prometheus" eq_refl eq_refl eq_refl)).
  split; reflexivity.
Defined.


